(** * gobank: the JWT-gated account API (api.go, storage.go)

    A shallow embedding of the HTTP handlers, the JWT middleware and the
    storage contract of the gobank server, with the properties of the
    authorization-gated resource path.

    Conventions.
    - Go [int] and [int64] are [Z] (the values met here stay in range; the
      range matters in [Atoi] and in the float64 conversions, where it is
      written out).
    - A Go pointer that may be nil is an [option]; a Go [error] result is an
      [option error], [None] being nil.
    - Go maps ([jwt.MapClaims], [http.Header], [mux.Vars]) are [gmap]s; a
      lookup of an absent key yields the zero value, as in Go.
    - A handler is a computation over a [World]: the storage state, the
      response writer and a trace of the observable calls.  A run either
      returns or panics.
    - The handlers are parametrized by an [Encoder], which says when
      [Encode] fails.  Statements that name none are about
      [encoder_succeeds]; the ones about a failing encoder name theirs. *)

From stdpp Require Import gmap strings list pretty.
From Stdlib Require Import ZArith Ascii String SpecFloat.

Set Warnings "-register-all".

Local Open Scope string_scope.
Local Open Scope Z_scope.

(** ** Go values *)

Definition min_int64 : Z := - 2 ^ 63.
Definition max_int64 : Z := 2 ^ 63 - 1.

Definition in_int64 (n : Z) : bool := (min_int64 <=? n) && (n <=? max_int64).

(** A Go [error], by the text its [Error()] method returns. *)
Inductive error := errorString (msg : string).

Definition err_Error (e : error) : string := let 'errorString m := e in m.

(** A finite float64: the dyadic number [f_mant * 2 ^ f_exp].  JSON numbers
    are finite, so NaN and the infinities never reach the program. *)
Record float64 := F64 { f_mant : Z; f_exp : Z }.

(** The float64 nearest to the integer [n], ties to even: what
    [strconv.ParseFloat] yields on the decimal text of [n], and so what the
    JSON decoder puts into an [interface{}] for it. *)
Definition float64_of_int (n : Z) : float64 :=
  let a := Z.abs n in
  let s := Z.log2 a + 1 - 53 in
  if s <=? 0 then F64 n 0
  else
    let q := Z.shiftr a s in
    let r := Z.land a (Z.ones s) in
    let half := 2 ^ (s - 1) in
    let q' := if (half <? r) || ((r =? half) && Z.odd q) then q + 1 else q in
    F64 (Z.sgn n * q') s.

(** The integer part of a float64 (truncation toward zero). *)
Definition float64_trunc (f : float64) : Z :=
  if 0 <=? f_exp f then f_mant f * 2 ^ f_exp f
  else Z.quot (f_mant f) (2 ^ (- f_exp f)).

(** The conversion [int64(f)].  Go leaves the result open when the value
    does not fit ("implementation-dependent"): [overflow] is what the
    platform yields then. *)
Definition int64_of_float64 (overflow : float64 -> Z) (f : float64) : Z :=
  let t := float64_trunc f in
  if in_int64 t then t else overflow f.

(** A value of type [interface{}] ([any]), for the dynamic types that occur:
    the ones put into claims by the program ([int], [int64]) and the ones
    [encoding/json] produces. *)
Inductive any :=
| VNil
| VBool (b : bool)
| VInt (n : Z)
| VInt64 (n : Z)
| VFloat64 (f : float64)
| VString (s : string)
| VArray (l : list any)
| VMap (l : list (string * any)).

(** What a value becomes when it is marshalled to JSON and unmarshalled into
    an [interface{}]: every number comes back as a float64. *)
Fixpoint json_reread (v : any) : any :=
  match v with
  | VInt n | VInt64 n => VFloat64 (float64_of_int n)
  | VArray l => VArray (List.map json_reread l)
  | VMap l => VMap (List.map (fun kv => (fst kv, json_reread (snd kv))) l)
  | _ => v
  end.

(** [fmt]'s [%v] on the values that are formatted here. *)
Definition fmt_v (v : any) : string :=
  match v with
  | VString s => s
  | VBool true => "true"
  | VBool false => "false"
  | VNil => "<nil>"
  | _ => "?"
  end.

(** ** strconv.Atoi *)

Definition digit_of (c : ascii) : option Z :=
  let n := Z.of_nat (nat_of_ascii c) in
  if (48 <=? n) && (n <=? 57) then Some (n - 48) else None.

Fixpoint parse_digits (s : string) (acc : Z) : option Z :=
  match s with
  | EmptyString => Some acc
  | String c s' =>
      match digit_of c with
      | Some d => parse_digits s' (10 * acc + d)
      | None => None
      end
  end.

Definition ErrSyntax : error := errorString "invalid syntax".
Definition ErrRange : error := errorString "value out of range".

(** [strconv.Atoi]: an optional sign, then one or more decimal digits, the
    value within the range of [int] (64 bits).  On a syntax error the value
    is 0, on a range error the nearest bound. *)
Definition Atoi (s : string) : Z * option error :=
  let '(neg, body) :=
    match s with
    | String "-" rest => (true, rest)
    | String "+" rest => (false, rest)
    | _ => (false, s)
    end in
  match body with
  | EmptyString => (0, Some ErrSyntax)
  | _ =>
      match parse_digits body 0 with
      | None => (0, Some ErrSyntax)
      | Some n =>
          let v := if neg then - n else n in
          if in_int64 v then (v, None)
          else (if neg then min_int64 else max_int64, Some ErrRange)
      end
  end.

(** ** strings.Split on one separator byte *)

Fixpoint split_on (sep : ascii) (s : string) : list string :=
  match s with
  | EmptyString => [EmptyString]
  | String c s' =>
      if Ascii.eqb c sep then EmptyString :: split_on sep s'
      else
        match split_on sep s' with
        | x :: xs => String c x :: xs
        | [] => [String c EmptyString]
        end
  end.

Fixpoint has_byte (sep : ascii) (s : string) : bool :=
  match s with
  | EmptyString => false
  | String c s' => Ascii.eqb c sep || has_byte sep s'
  end.

(** ** net/http: headers *)

Definition is_lower (c : ascii) : bool :=
  let n := nat_of_ascii c in (97 <=? n)%nat && (n <=? 122)%nat.
Definition is_upper (c : ascii) : bool :=
  let n := nat_of_ascii c in (65 <=? n)%nat && (n <=? 90)%nat.
Definition is_digit (c : ascii) : bool :=
  let n := nat_of_ascii c in (48 <=? n)%nat && (n <=? 57)%nat.

(** The bytes allowed in a header field name (RFC 7230 token). *)
Definition validHeaderFieldByte (c : ascii) : bool :=
  is_lower c || is_upper c || is_digit c
  || has_byte c "!#$%&'*+-.^_`|~".

Fixpoint all_bytes (p : ascii -> bool) (s : string) : bool :=
  match s with
  | EmptyString => true
  | String c s' => p c && all_bytes p s'
  end.

Fixpoint canonical_from (upper : bool) (s : string) : string :=
  match s with
  | EmptyString => EmptyString
  | String c s' =>
      let n := nat_of_ascii c in
      let c' :=
        if upper && is_lower c then ascii_of_nat (n - 32)
        else if negb upper && is_upper c then ascii_of_nat (n + 32)
        else c in
      String c' (canonical_from (Ascii.eqb c "-") s')
  end.

(** [textproto.CanonicalMIMEHeaderKey]: the first letter and every letter
    after a hyphen in upper case, the others in lower case; a key with a byte
    that no field name may hold is left as it is. *)
Definition CanonicalMIMEHeaderKey (s : string) : string :=
  if all_bytes validHeaderFieldByte s then canonical_from true s else s.

(** [http.Header.Get]: the first value stored under the canonical form of the
    key, the empty string when there is none. *)
Definition Header_Get (h : gmap string (list string)) (key : string) : string :=
  match h !! CanonicalMIMEHeaderKey key with
  | Some (v :: _) => v
  | _ => EmptyString
  end.

(** ** Data model *)

(** Modelled from the spec: the [Account] record and [NewAccount] (types.go
    is not among the sources).  Section 3 of the specification gives the
    attributes: identifier, first name, last name, account number (64-bit
    integer), balance and creation timestamp; the scan in [GetAllAccounts]
    and the insert in [CreateAccount] name the same six fields. *)
Record Account := {
  ID : Z;
  FirstName : string;
  LastName : string;
  Number : Z;
  Balance : Z;
  CreatedAt : Z
}.

(** Modelled from the spec: the two request types (types.go again).  A
    creation request carries the two names ([req.FirstName], [req.LastName]
    in [handleCreateAccount]; the prefix keeps them apart from the fields of
    [Account]); a transfer request a destination account number and an
    amount. *)
Record CreateAccountRequest := { req_FirstName : string; req_LastName : string }.

Record TransferRequest := { ToAccount : Z; Amount : Z }.

(** [ApiError] of api.go. *)
Record ApiError := { Error : string }.

(** The values handed to [WriteJSON]. *)
Inductive Payload :=
| JApiError (e : ApiError)
| JAccount (a : option Account)
| JAccounts (l : list Account)
| JDeleted (id : Z)
| JTransfer (t : TransferRequest).

(** What the process reads from its surroundings: the environment variables,
    the values [NewAccount] generates, the JSON decoding of request bodies and
    the platform's result of an out-of-range float conversion. *)
Record Runtime := {
  environ : gmap string string;
  gen_number : Z;
  gen_balance : Z;
  gen_time : Z;
  decode_CreateAccountRequest : string -> CreateAccountRequest + error;
  decode_TransferRequest : string -> TransferRequest + error;
  conv_overflow : float64 -> Z
}.

(** [os.Getenv]: the empty string for a variable that is not set. *)
Definition Getenv (rt : Runtime) (key : string) : string :=
  default EmptyString (environ rt !! key).

(** Modelled from the spec: [NewAccount] takes the two names; number, balance
    and timestamp are system-generated, and the identifier is left for the
    store to assign. *)
Definition NewAccount (rt : Runtime) (firstName lastName : string) : Account :=
  {| ID := 0; FirstName := firstName; LastName := lastName;
     Number := gen_number rt; Balance := gen_balance rt; CreatedAt := gen_time rt |}.

(** ** The storage contract (storage.go) *)

(** The [Storage] interface, over the state [σ] of an implementation.  Every
    method returns its results and the state it leaves. *)
Class Storage (σ : Type) := {
  CreateAccount : Account -> σ -> option error * σ;
  DeleteAccount : Z -> σ -> option error * σ;
  GetAccountByID : Z -> σ -> (option Account * option error) * σ;
  UpdateAccount : Account -> σ -> option error * σ;
  GetAllAccounts : σ -> (list Account * option error) * σ
}.

(** What [*sql.Rows] gives to a loop over [rows.Next()]: the rows delivered
    before [Next] returned false, each of which scans into an account or
    fails, and the error [rows.Err()] holds afterwards - nil when the rows
    were exhausted, the cause when the iteration broke off. *)
Record Rows := {
  delivered : list (Account + error);
  rows_Err : option error
}.

(** [database/sql] as [PostgresStorage] uses it: the insert statement of
    [CreateAccount] and the query of [GetAllAccounts], which fails or opens
    rows. *)
Record SQL (DB : Type) := {
  sql_insert : Account -> DB -> option error * DB;
  sql_select_all : DB -> (Rows + error) * DB
}.
Arguments sql_insert {DB}.
Arguments sql_select_all {DB}.

(** The loop of [GetAllAccounts] over the rows delivered: the first row that
    fails to scan ends it with a nil slice and the error.  [rows.Err()] is
    not read, neither in the loop nor after it. *)
Fixpoint scan_rows (rows : list (Account + error)) (accounts : list Account)
  : list Account * option error :=
  match rows with
  | [] => (accounts, None)
  | inl a :: rows' => scan_rows rows' (accounts ++ [a])
  | inr e :: _ => ([], Some e)
  end.

Module PostgresStorage.

Definition CreateAccount {DB} (sql : SQL DB) (a : Account) (db : DB) : option error * DB :=
  sql_insert sql a db.

Definition DeleteAccount {DB} (id : Z) (db : DB) : option error * DB :=
  (None, db).

Definition GetAccountByID {DB} (id : Z) (db : DB) : (option Account * option error) * DB :=
  ((None, None), db).

Definition UpdateAccount {DB} (account : Account) (db : DB) : option error * DB :=
  (None, db).

Definition GetAllAccounts {DB} (sql : SQL DB) (db : DB) : (list Account * option error) * DB :=
  match sql_select_all sql db with
  | (inr err, db') => (([], Some err), db')
  | (inl rows, db') => (scan_rows (delivered rows) [], db')
  end.

End PostgresStorage.

#[export] Instance PostgresStorage_Storage {DB} (sql : SQL DB) : Storage DB := {
  CreateAccount := PostgresStorage.CreateAccount sql;
  DeleteAccount := PostgresStorage.DeleteAccount;
  GetAccountByID := PostgresStorage.GetAccountByID;
  UpdateAccount := PostgresStorage.UpdateAccount;
  GetAllAccounts := PostgresStorage.GetAllAccounts sql
}.

(** Modelled from the spec: a store that fulfils the contract of section 4.1
    ([GetByID] returns the account or fails with [NotFound], [Delete] fails
    with [NotFound] on an absent account), kept in memory.  It is the test
    double section 9 of the specification speaks of; the repository has no
    such implementation. *)
Module MemStorage.

Definition NotFound (id : Z) : error := errorString "account not found".

Definition next_id (m : gmap Z Account) : Z :=
  1 + map_fold (fun k _ acc => Z.max k acc) 0 m.

Definition CreateAccount (a : Account) (m : gmap Z Account) : option error * gmap Z Account :=
  let id := next_id m in
  (None, <[id := {| ID := id; FirstName := FirstName a; LastName := LastName a;
                    Number := Number a; Balance := Balance a; CreatedAt := CreatedAt a |}]> m).

Definition DeleteAccount (id : Z) (m : gmap Z Account) : option error * gmap Z Account :=
  match m !! id with
  | Some _ => (None, delete id m)
  | None => (Some (NotFound id), m)
  end.

Definition GetAccountByID (id : Z) (m : gmap Z Account)
  : (option Account * option error) * gmap Z Account :=
  match m !! id with
  | Some a => ((Some a, None), m)
  | None => ((None, Some (NotFound id)), m)
  end.

Definition UpdateAccount (a : Account) (m : gmap Z Account) : option error * gmap Z Account :=
  match m !! ID a with
  | Some _ => (None, <[ID a := a]> m)
  | None => (Some (NotFound (ID a)), m)
  end.

Definition GetAllAccounts (m : gmap Z Account) : (list Account * option error) * gmap Z Account :=
  ((snd <$> map_to_list m, None), m).

End MemStorage.

#[export] Instance MemStorage_Storage : Storage (gmap Z Account) := {
  CreateAccount := MemStorage.CreateAccount;
  DeleteAccount := MemStorage.DeleteAccount;
  GetAccountByID := MemStorage.GetAccountByID;
  UpdateAccount := MemStorage.UpdateAccount;
  GetAllAccounts := MemStorage.GetAllAccounts
}.

(** ** github.com/golang-jwt/jwt/v5, as far as the server calls it *)

Module jwt.

Inductive Hash := SHA256 | SHA384 | SHA512.

(** The registered signing methods, by their Go types. *)
Inductive SigningMethod :=
| SigningMethodHMAC (h : Hash)
| SigningMethodRSA (h : Hash)
| SigningMethodRSAPSS (h : Hash)
| SigningMethodECDSA (h : Hash)
| SigningMethodEd25519
| signingMethodNone.

Definition SigningMethodHS256 : SigningMethod := SigningMethodHMAC SHA256.

Definition Alg (m : SigningMethod) : string :=
  match m with
  | SigningMethodHMAC SHA256 => "HS256"
  | SigningMethodHMAC SHA384 => "HS384"
  | SigningMethodHMAC SHA512 => "HS512"
  | SigningMethodRSA SHA256 => "RS256"
  | SigningMethodRSA SHA384 => "RS384"
  | SigningMethodRSA SHA512 => "RS512"
  | SigningMethodRSAPSS SHA256 => "PS256"
  | SigningMethodRSAPSS SHA384 => "PS384"
  | SigningMethodRSAPSS SHA512 => "PS512"
  | SigningMethodECDSA SHA256 => "ES256"
  | SigningMethodECDSA SHA384 => "ES384"
  | SigningMethodECDSA SHA512 => "ES512"
  | SigningMethodEd25519 => "EdDSA"
  | signingMethodNone => "none"
  end.

Definition signingMethods : list SigningMethod :=
  let hs := [SHA256; SHA384; SHA512] in
  List.map SigningMethodHMAC hs ++ List.map SigningMethodRSA hs
  ++ List.map SigningMethodRSAPSS hs ++ List.map SigningMethodECDSA hs
  ++ [SigningMethodEd25519; signingMethodNone].

(** [GetSigningMethod]: the method registered under an [alg] value, if any. *)
Definition GetSigningMethod (alg : string) : option SigningMethod :=
  List.find (fun m => String.eqb (Alg m) alg) signingMethods.

(** The type assertion of a method to a pointer to [jwt.SigningMethodHMAC],
    in the comma-ok form. *)
Definition as_SigningMethodHMAC (m : option SigningMethod) : option Hash :=
  match m with
  | Some (SigningMethodHMAC h) => Some h
  | _ => None
  end.

(** The [Claims] interface: [MapClaims], or any other implementation. *)
Inductive ClaimsValue :=
| MapClaims (m : gmap string any)
| OtherClaims.

Record Token := {
  Raw : string;
  Method : option SigningMethod;
  Header : gmap string any;
  Claims : ClaimsValue;
  Signature : string;
  Valid : bool
}.

(** The operations of the library that stay abstract: the base64url and JSON
    coding of a segment, the MAC, and the validation of the registered
    claims (which reads the clock).  A key is a byte string, [[]byte]. *)
Record Lib := {
  EncodeJSON : gmap string any -> string;
  DecodeJSON : string -> option (gmap string any);
  EncodeSegment : string -> string;
  DecodeSegment : string -> option string;
  HMAC : Hash -> string -> string -> string;
  ValidateClaims : gmap string any -> option error
}.

Definition ErrTokenMalformed : error := errorString "token is malformed".
Definition ErrTokenUnverifiable : error := errorString "token is unverifiable".
Definition ErrTokenSignatureInvalid : error := errorString "token signature is invalid".
Definition ErrTokenInvalidClaims : error := errorString "token has invalid claims".
Definition ErrInvalidKeyType : error := errorString "key is of invalid type".
Definition ErrSignatureInvalid : error := errorString "signature is invalid".
Definition NoneSignatureTypeDisallowedError : error :=
  errorString "'none' signature type is not allowed".

(** [newError]: the sentinel, then the message, then the wrapped errors. *)
Definition newError (message : string) (err : error) (more : list error) : error :=
  errorString
    (err_Error err
     ++ (if String.eqb message EmptyString then EmptyString else ": " ++ message)
     ++ String.concat EmptyString (List.map (fun e => ": " ++ err_Error e) more))%string.

Definition blank_token (raw : string) : Token :=
  {| Raw := raw; Method := None; Header := ∅; Claims := MapClaims ∅;
     Signature := EmptyString; Valid := false |}.

(** [Parser.ParseUnverified] with [MapClaims]: split into three segments,
    decode header and claims, look the signing method up. *)
Definition ParseUnverified (L : Lib) (tokenString : string)
  : option Token * list string * option error :=
  let parts := split_on "." tokenString in
  match parts with
  | [p0; p1; p2] =>
      let token := blank_token tokenString in
      match DecodeJSON L p0 with
      | None =>
          (Some token, parts,
           Some (newError "could not decode header" ErrTokenMalformed []))
      | Some header =>
          let token :=
            {| Raw := tokenString; Method := None; Header := header;
               Claims := MapClaims ∅; Signature := EmptyString; Valid := false |} in
          match DecodeJSON L p1 with
          | None =>
              (Some token, parts,
               Some (newError "could not decode claim" ErrTokenMalformed []))
          | Some claims =>
              match header !! "alg" with
              | Some (VString alg) =>
                  match GetSigningMethod alg with
                  | Some method =>
                      (Some {| Raw := tokenString; Method := Some method;
                               Header := header; Claims := MapClaims claims;
                               Signature := EmptyString; Valid := false |},
                       parts, None)
                  | None =>
                      (Some {| Raw := tokenString; Method := None;
                               Header := header; Claims := MapClaims claims;
                               Signature := EmptyString; Valid := false |},
                       parts,
                       Some (newError "signing method (alg) is unavailable"
                               ErrTokenUnverifiable []))
                  end
              | _ =>
                  (Some {| Raw := tokenString; Method := None;
                           Header := header; Claims := MapClaims claims;
                           Signature := EmptyString; Valid := false |},
                   parts,
                   Some (newError "signing method (alg) is unspecified"
                           ErrTokenUnverifiable []))
              end
          end
      end
  | _ =>
      (None, parts,
       Some (newError "token contains an invalid number of segments"
               ErrTokenMalformed []))
  end.

(** [SigningMethod.Verify] on a key that is nil or a byte string: a MAC is
    recomputed and compared; the public-key methods refuse a byte-string key,
    and "none" refuses every key but its own marker. *)
Definition Verify (L : Lib) (m : SigningMethod) (signingString sig : string)
    (key : option string) : option error :=
  match m with
  | SigningMethodHMAC h =>
      match key with
      | None => Some ErrInvalidKeyType
      | Some keyBytes =>
          if String.eqb sig (HMAC L h keyBytes signingString) then None
          else Some ErrSignatureInvalid
      end
  | signingMethodNone => Some NoneSignatureTypeDisallowedError
  | _ => Some ErrInvalidKeyType
  end.

(** [SigningMethod.Sign], on the same keys. *)
Definition Sign (L : Lib) (m : SigningMethod) (signingString : string)
    (key : option string) : string + error :=
  match m with
  | SigningMethodHMAC h =>
      match key with
      | None => inr ErrInvalidKeyType
      | Some keyBytes => inl (HMAC L h keyBytes signingString)
      end
  | signingMethodNone => inr NoneSignatureTypeDisallowedError
  | _ => inr ErrInvalidKeyType
  end.

Definition claims_map (c : ClaimsValue) : gmap string any :=
  match c with
  | MapClaims m => m
  | OtherClaims => ∅
  end.

(** [Parse]: [ParseWithClaims] with [MapClaims] and the default parser (no
    list of valid methods, claims validated). *)
Definition Parse (L : Lib) (tokenString : string)
    (keyFunc : Token -> option string * option error)
  : option Token * option error :=
  match ParseUnverified L tokenString with
  | (token, _, Some err) => (token, Some err)
  | (Some token, [p0; p1; p2], None) =>
      match keyFunc token with
      | (_, Some err) =>
          (Some token,
           Some (newError "error while executing keyfunc" ErrTokenUnverifiable [err]))
      | (key, None) =>
          match DecodeSegment L p2 with
          | None =>
              (Some token,
               Some (newError "could not base64 decode signature" ErrTokenMalformed []))
          | Some sig =>
              let signed :=
                {| Raw := Raw token; Method := Method token; Header := Header token;
                   Claims := Claims token; Signature := sig; Valid := false |} in
              match
                match Method token with
                | Some m => Verify L m (p0 ++ "." ++ p1)%string sig key
                | None => Some ErrTokenUnverifiable
                end
              with
              | Some err => (Some signed, Some (newError EmptyString ErrTokenSignatureInvalid [err]))
              | None =>
                  match ValidateClaims L (claims_map (Claims token)) with
                  | Some err =>
                      (Some signed, Some (newError EmptyString ErrTokenInvalidClaims [err]))
                  | None =>
                      (Some {| Raw := Raw token; Method := Method token;
                               Header := Header token; Claims := Claims token;
                               Signature := sig; Valid := true |}, None)
                  end
              end
          end
      end
  | (token, _, None) => (token, Some ErrTokenMalformed)
  end.

(** [NewWithClaims]: a fresh token with the standard header. *)
Definition NewWithClaims (method : SigningMethod) (claims : ClaimsValue) : Token :=
  {| Raw := EmptyString; Method := Some method;
     Header := {[ "typ" := VString "JWT"; "alg" := VString (Alg method) ]};
     Claims := claims; Signature := EmptyString; Valid := false |}.

Definition SigningString (L : Lib) (t : Token) : string :=
  (EncodeJSON L (Header t) ++ "." ++ EncodeJSON L (claims_map (Claims t)))%string.

(** [Token.SignedString]: the signing string, a dot, the encoded signature. *)
Definition SignedString (L : Lib) (t : Token) (key : option string)
  : string * option error :=
  let sstr := SigningString L t in
  match Method t with
  | None => (EmptyString, Some ErrInvalidKeyType)
  | Some m =>
      match Sign L m sstr key with
      | inr err => (EmptyString, Some err)
      | inl sig => ((sstr ++ "." ++ EncodeSegment L sig)%string, None)
      end
  end.

End jwt.

(** ** net/http, as far as the handlers use it *)

Module http.

Definition MethodGet : string := "GET".
Definition MethodPost : string := "POST".
Definition MethodDelete : string := "DELETE".

Definition StatusOK : Z := 200.
Definition StatusBadRequest : Z := 400.

(** A request as a handler sees it; [Vars] are the route variables that
    [mux.Vars] returns for it. *)
Record Request := {
  Method : string;
  Header : gmap string (list string);
  Vars : gmap string string;
  Body : string
}.

(** The state behind an [http.ResponseWriter]: the header map the handler
    edits, the status once it has been written together with the headers
    that went out with it, and the values encoded into the body, in order. *)
Record ResponseWriter := {
  rw_header : gmap string (list string);
  rw_status : option Z;
  rw_sent : gmap string (list string);
  rw_body : list Payload
}.

Definition fresh : ResponseWriter :=
  {| rw_header := ∅; rw_status := None; rw_sent := ∅; rw_body := [] |}.

(** [w.Header().Set(key, value)]. *)
Definition Header_Set (key value : string) (w : ResponseWriter) : ResponseWriter :=
  {| rw_header := <[CanonicalMIMEHeaderKey key := [value]]> (rw_header w);
     rw_status := rw_status w; rw_sent := rw_sent w; rw_body := rw_body w |}.

(** [w.WriteHeader(status)]: the first call sends the status and the headers
    set so far; a later call is ignored. *)
Definition WriteHeader (status : Z) (w : ResponseWriter) : ResponseWriter :=
  match rw_status w with
  | Some _ => w
  | None =>
      {| rw_header := rw_header w; rw_status := Some status;
         rw_sent := rw_header w; rw_body := rw_body w |}
  end.

(** [w.Write]: sends the status 200 first if none was written. *)
Definition Write_ (v : Payload) (w : ResponseWriter) : ResponseWriter :=
  let w := WriteHeader StatusOK w in
  {| rw_header := rw_header w; rw_status := rw_status w;
     rw_sent := rw_sent w; rw_body := rw_body w ++ [v] |}.

End http.

(** ** Runs of a handler *)

Inductive StoreCall :=
| CallCreateAccount (a : Account)
| CallDeleteAccount (id : Z)
| CallGetAccountByID (id : Z)
| CallUpdateAccount (a : Account)
| CallGetAllAccounts.

(** What a run leaves in its trace: a line printed, a call of a [Storage]
    method, the call of the handler a middleware wraps. *)
Inductive Event :=
| EvPrintln (line : string)
| EvStorage (c : StoreCall)
| EvHandlerFunc.

Inductive PanicValue :=
| NilDereference
| TypeAssertion.

Record World (σ : Type) := {
  storage : σ;
  response : http.ResponseWriter;
  trace : list Event
}.
Arguments storage {σ}.
Arguments response {σ}.
Arguments trace {σ}.

Inductive Result (A W : Type) :=
| Returned (a : A) (w : W)
| Panicked (p : PanicValue) (w : W).
Arguments Returned {A W}.
Arguments Panicked {A W}.

(** A Go function run against a world. *)
Definition Go (σ A : Type) : Type := World σ -> Result A (World σ).

#[export] Instance Go_ret {σ} : MRet (Go σ) := fun A a w => Returned a w.

#[export] Instance Go_bind {σ} : MBind (Go σ) := fun A B f m w =>
  match m w with
  | Returned a w' => f a w'
  | Panicked p w' => Panicked p w'
  end.

Definition panic {σ A} (p : PanicValue) : Go σ A := fun w => Panicked p w.

Definition emit {σ} (e : Event) : Go σ unit := fun w =>
  Returned tt {| storage := storage w; response := response w; trace := trace w ++ [e] |}.

Definition Println {σ} (line : string) : Go σ unit := emit (EvPrintln line).

Definition on_response {σ} (f : http.ResponseWriter -> http.ResponseWriter) : Go σ unit :=
  fun w =>
    Returned tt {| storage := storage w; response := f (response w); trace := trace w |}.

(** A call of a storage method: logged, then run on the state. *)
Definition call {σ A} (c : StoreCall) (f : σ -> A * σ) : Go σ A := fun w =>
  let '(a, st) := f (storage w) in
  Returned a {| storage := st; response := response w;
                trace := trace w ++ [EvStorage c] |}.

Definition start {σ} (st : σ) : World σ :=
  {| storage := st; response := http.fresh; trace := [] |}.

(** ** api.go *)

(** [encoding/json] and the connection behind the writer, as [Encode] meets
    them: the error, if any, that encoding a value and writing it out ends
    with (a value that does not marshal, a write that fails). *)
Class Encoder := encode_error : Payload -> option error.

Section Server.

Context {σ : Type} `{!Storage σ} {enc : Encoder}.
Variable L : jwt.Lib.
Variable rt : Runtime.

Definition s_CreateAccount (a : Account) : Go σ (option error) :=
  call (CallCreateAccount a) (CreateAccount a).
Definition s_DeleteAccount (id : Z) : Go σ (option error) :=
  call (CallDeleteAccount id) (DeleteAccount id).
Definition s_GetAccountByID (id : Z) : Go σ (option Account * option error) :=
  call (CallGetAccountByID id) (GetAccountByID id).
Definition s_GetAllAccounts : Go σ (list Account * option error) :=
  call CallGetAllAccounts GetAllAccounts.

(** [json.NewEncoder(w).Encode(v)]: the value is written to the response,
    or the error of the encoder is returned and nothing is written. *)
Definition Encode (v : Payload) : Go σ (option error) :=
  match @encode_error enc v with
  | Some err => mret (Some err)
  | None => on_response (http.Write_ v);; mret None
  end.

Definition WriteJSON (status : Z) (v : Payload) : Go σ (option error) :=
  on_response (http.Header_Set "Content-Type" "application/json");;
  on_response (http.WriteHeader status);;
  Encode v.

Definition permissionDenied : Go σ unit :=
  WriteJSON http.StatusOK (JApiError {| Error := "permission denied" |});;
  mret tt.

Definition getId (r : http.Request) : Z * option error :=
  let idStr := default EmptyString (http.Vars r !! "id") in
  let '(id, err) := Atoi idStr in
  match err with
  | Some _ => (id, Some (errorString ("invalid id provided: '" ++ idStr ++ "'")))
  | None => (id, None)
  end.

Definition createJWT (account : Account) : string * option error :=
  let secret := Getenv rt "JWT_TEST_SECRET" in
  let claims :=
    jwt.MapClaims {[ "expiresAt" := VInt 15000;
                     "accountNumber" := VInt64 (Number account) ]} in
  let token := jwt.NewWithClaims jwt.SigningMethodHS256 claims in
  jwt.SignedString L token (Some secret).

(** The key function handed to [jwt.Parse]. *)
Definition keyFunc (secret : string) (token : jwt.Token) : option string * option error :=
  match jwt.as_SigningMethodHMAC (jwt.Method token) with
  | None =>
      (None,
       Some (errorString ("unexpected signing method: "
                          ++ fmt_v (default VNil (jwt.Header token !! "alg")))))
  | Some _ => (Some secret, None)
  end.

Definition validateJWT (tokenString : string) : option jwt.Token * option error :=
  let secret := Getenv rt "JWT_TEST_SECRET" in
  jwt.Parse L tokenString (keyFunc secret).

(** [withJWTAuth]: the middleware around [handlerFunc].  In the comparison
    the compiled code looks the claim up and asserts its type before it
    loads [account.Number]: without a float64 under [accountNumber] the panic
    is the one of the type assertion, whatever the account; with one, a nil
    account panics on the dereference. *)
Definition withJWTAuth (handlerFunc : http.Request -> Go σ unit) (r : http.Request)
  : Go σ unit :=
  Println "calling JWT middlewares";;
  let '(token, err) := validateJWT (Header_Get (http.Header r) "x-jwt-token") in
  match err, token with
  | Some _, _ => permissionDenied
  | None, None => panic NilDereference
  | None, Some token =>
      if negb (jwt.Valid token) then permissionDenied
      else
        let '(id, err) := getId r in
        match err with
        | Some _ => permissionDenied
        | None =>
            '(account, err) ← s_GetAccountByID id;
            match err with
            | Some _ => permissionDenied
            | None =>
                match jwt.Claims token with
                | jwt.OtherClaims => panic TypeAssertion
                | jwt.MapClaims claims =>
                    match default VNil (claims !! "accountNumber") with
                    | VFloat64 f =>
                        match account with
                        | None => panic NilDereference
                        | Some account =>
                            if negb (Number account
                                     =? int64_of_float64 (conv_overflow rt) f)
                            then permissionDenied
                            else emit EvHandlerFunc;; handlerFunc r
                        end
                    | _ => panic TypeAssertion
                    end
                end
            end
        end
  end.

Definition handleGetAllAccounts (r : http.Request) : Go σ (option error) :=
  '(accounts, err) ← s_GetAllAccounts;
  match err with
  | Some e => mret (Some e)
  | None => WriteJSON http.StatusOK (JAccounts accounts)
  end.

Definition handleCreateAccount (r : http.Request) : Go σ (option error) :=
  match decode_CreateAccountRequest rt (http.Body r) with
  | inr err => mret (Some err)
  | inl req =>
      let account := NewAccount rt (req_FirstName req) (req_LastName req) in
      err ← s_CreateAccount account;
      match err with
      | Some e => mret (Some e)
      | None =>
          let '(tokenString, err) := createJWT account in
          match err with
          | Some e => mret (Some e)
          | None =>
              Println ("JWT token: " ++ tokenString);;
              WriteJSON http.StatusOK (JAccount (Some account))
          end
      end
  end.

Definition handleDeleteAccount (r : http.Request) : Go σ (option error) :=
  let '(id, err) := getId r in
  match err with
  | Some e => mret (Some e)
  | None =>
      '(_, err) ← s_GetAccountByID id;
      match err with
      | Some e =>
          mret (Some (errorString
                        ("error occured while deleting account details: "
                         ++ err_Error e)))
      | None =>
          err ← s_DeleteAccount id;
          match err with
          | Some e => mret (Some e)
          | None => WriteJSON http.StatusOK (JDeleted id)
          end
      end
  end.

Definition handleAccount (r : http.Request) : Go σ (option error) :=
  if String.eqb (http.Method r) http.MethodGet then handleGetAllAccounts r
  else if String.eqb (http.Method r) http.MethodPost then handleCreateAccount r
  else mret (Some (errorString ("method not allowed, " ++ http.Method r))).

Definition handleAccountByID (r : http.Request) : Go σ (option error) :=
  if String.eqb (http.Method r) http.MethodGet then
    let '(id, err) := getId r in
    match err with
    | Some e => mret (Some e)
    | None =>
        '(account, err) ← s_GetAccountByID id;
        match err with
        | Some e =>
            mret (Some (errorString
                          ("error occured while fetching account details: "
                           ++ err_Error e)))
        | None => WriteJSON http.StatusOK (JAccount account)
        end
    end
  else if String.eqb (http.Method r) http.MethodDelete then handleDeleteAccount r
  else mret (Some (errorString ("method not allowed, " ++ http.Method r))).

Definition handleTransfer (r : http.Request) : Go σ (option error) :=
  if negb (String.eqb (http.Method r) http.MethodPost) then
    mret (Some (errorString ("method not allowed, " ++ http.Method r)))
  else
    match decode_TransferRequest rt (http.Body r) with
    | inr err => mret (Some err)
    | inl transferRequest => WriteJSON http.StatusOK (JTransfer transferRequest)
    end.

Definition makeHTTPHandlerFunc (f : http.Request -> Go σ (option error))
    (r : http.Request) : Go σ unit :=
  err ← f r;
  match err with
  | Some e =>
      WriteJSON http.StatusBadRequest (JApiError {| Error := err_Error e |});;
      mret tt
  | None => mret tt
  end.

(** The three routes that [Run] registers. *)
Inductive Route := RouteAccount | RouteAccountByID | RouteTransfer.


(** The handler [Run] registers for each route. *)
Definition registered (route : Route) : http.Request -> Go σ unit :=
  match route with
  | RouteAccount => makeHTTPHandlerFunc handleAccount
  | RouteAccountByID => withJWTAuth (makeHTTPHandlerFunc handleAccountByID)
  | RouteTransfer => makeHTTPHandlerFunc handleTransfer
  end.

End Server.

(** ** The earlier api.go kept in storage.go (lines 98 to 185) *)

Module Earlier.

(** [WriteJSON] as it was: the status is written first and the header is set
    after it. *)
Definition WriteJSON {σ : Type} {enc : Encoder} (status : Z) (v : Payload)
  : Go σ (option error) :=
  on_response (http.WriteHeader status);;
  on_response (http.Header_Set "Content-Type" "application/json");;
  Encode (enc := enc) v.

End Earlier.

(** ** The encoder that succeeds *)

(** The encoder that never fails.  A statement that names no encoder is
    about a server whose responses encode and reach the connection: it is
    read with this one. *)
#[export] Instance encoder_succeeds : Encoder := fun _ => None.

(** ** Observations on a run *)

(** The response every denial of the middleware leaves on a fresh writer. *)
Definition denied_response : http.ResponseWriter :=
  {| http.rw_header := {[ "Content-Type" := ["application/json"] ]};
     http.rw_status := Some http.StatusOK;
     http.rw_sent := {[ "Content-Type" := ["application/json"] ]};
     http.rw_body := [JApiError {| Error := "permission denied" |}] |}.

(** The response [WriteJSON] leaves on a fresh writer. *)
Definition json_response (status : Z) (v : Payload) : http.ResponseWriter :=
  {| http.rw_header := {[ "Content-Type" := ["application/json"] ]};
     http.rw_status := Some status;
     http.rw_sent := {[ "Content-Type" := ["application/json"] ]};
     http.rw_body := [v] |}.

(** The store calls of a trace. *)
Definition store_calls (t : list Event) : list StoreCall :=
  omap (fun e => match e with EvStorage c => Some c | _ => None end) t.

(** Whether the wrapped handler was called. *)
Definition handler_called (t : list Event) : bool :=
  existsb (fun e => match e with EvHandlerFunc => true | _ => false end) t.

(** A run that ends in a denial: it returns, the writer holds the denial, and
    the wrapped handler was not called. *)
Definition denies {σ} (run : Result unit (World σ)) : Prop :=
  exists w', run = Returned tt w'
    /\ response w' = denied_response
    /\ handler_called (trace w') = false.

(** The line the middleware prints first. *)
Definition middleware_line : Event := EvPrintln "calling JWT middlewares".

(** The world a denial leaves: the store as it is by then, the denial on the
    writer, and the trace up to the denial. *)
Definition denied_world {σ} (st : σ) (tr : list Event) : World σ :=
  {| storage := st; response := denied_response; trace := tr |}.

(** The panic of the comparison step on a nil account: the assertion on the
    claim is evaluated first, the dereference of the account after it. *)
Definition nil_account_panic (claims : gmap string any) : PanicValue :=
  match claims !! "accountNumber" with
  | Some (VFloat64 _) => NilDereference
  | _ => TypeAssertion
  end.

(** The response after [WriteJSON] has set the header and written the status
    and the encoder has refused the value: nothing is in the body. *)
Definition unencoded_response (status : Z) : http.ResponseWriter :=
  {| http.rw_header := {[ "Content-Type" := ["application/json"] ]};
     http.rw_status := Some status;
     http.rw_sent := {[ "Content-Type" := ["application/json"] ]};
     http.rw_body := [] |}.

(** The response [WriteJSON status v] leaves on a fresh writer under an
    encoder: the value is in the body when the encoder took it. *)
Definition written_response (enc : Encoder) (status : Z) (v : Payload)
  : http.ResponseWriter :=
  match @encode_error enc v with
  | None => json_response status v
  | Some _ => unencoded_response status
  end.

(** The response after [WriteJSON] wrote [status], its encoder failed with
    [e], and [makeHTTPHandlerFunc] answered the error: the status stays, and
    the body holds the error when the encoder took that. *)
Definition late_error_response (enc : Encoder) (status : Z) (e : error)
  : http.ResponseWriter :=
  {| http.rw_header := {[ "Content-Type" := ["application/json"] ]};
     http.rw_status := Some status;
     http.rw_sent := {[ "Content-Type" := ["application/json"] ]};
     http.rw_body :=
       match @encode_error enc (JApiError {| Error := err_Error e |}) with
       | None => [JApiError {| Error := err_Error e |}]
       | Some _ => []
       end |}.

(** The header and the claims of a token that [createJWT] issues. *)
Definition issued_header : gmap string any :=
  {[ "typ" := VString "JWT"; "alg" := VString "HS256" ]}.

Definition issued_claims (account : Account) : gmap string any :=
  {[ "expiresAt" := VInt 15000; "accountNumber" := VInt64 (Number account) ]}.

(** The library codes the segments of one token faithfully: the encodings
    hold no dot, and decoding gives back what was encoded, numbers reread as
    float64. *)
Record faithful (L : jwt.Lib) (header claims : gmap string any) (sig : string) : Prop := {
  header_no_dot : has_byte "." (jwt.EncodeJSON L header) = false;
  claims_no_dot : has_byte "." (jwt.EncodeJSON L claims) = false;
  sig_no_dot : has_byte "." (jwt.EncodeSegment L sig) = false;
  header_decodes : jwt.DecodeJSON L (jwt.EncodeJSON L header) = Some (json_reread <$> header);
  claims_decode : jwt.DecodeJSON L (jwt.EncodeJSON L claims) = Some (json_reread <$> claims);
  sig_decodes : jwt.DecodeSegment L (jwt.EncodeSegment L sig) = Some sig
}.

(** The signature [createJWT] computes for an account under a secret. *)
Definition issued_sig (L : jwt.Lib) (secret : string) (account : Account) : string :=
  jwt.HMAC L jwt.SHA256 secret
    (jwt.EncodeJSON L issued_header ++ "." ++ jwt.EncodeJSON L (issued_claims account))%string.

(** Integers that float64 holds exactly. *)
Definition float64_exact (n : Z) : Prop := Z.abs n <= 2 ^ 53.

(** ** Instances to run the definitions on *)

Module Toy.

Fixpoint without_byte (b : ascii) (s : string) : string :=
  match s with
  | EmptyString => EmptyString
  | String c s' =>
      if Ascii.eqb c b then without_byte b s' else String c (without_byte b s')
  end.

(** A stand-in for the library's codec and MAC, enough to run the server on
    one token: a header segment is "h", the claims segment "c" decodes to the
    claims of [account] reread from JSON, and the MAC of a message is a tag,
    the key and the message without its dots. *)
Definition lib (account : Account) : jwt.Lib :=
  {| jwt.EncodeJSON m := match m !! "alg" with Some _ => "h" | None => "c" end;
     jwt.DecodeJSON s :=
       if String.eqb s "h" then Some issued_header
       else if String.eqb s "c" then Some (json_reread <$> issued_claims account)
       else None;
     jwt.EncodeSegment s := s;
     jwt.DecodeSegment s := Some s;
     jwt.HMAC _ key msg := ("mac-" ++ key ++ "-" ++ without_byte "." msg)%string;
     jwt.ValidateClaims _ := None |}.

(** The same library for a token whose claims hold an expiry and no account
    number. *)
Definition lib_without_number : jwt.Lib :=
  {| jwt.EncodeJSON m := match m !! "alg" with Some _ => "h" | None => "c" end;
     jwt.DecodeJSON s :=
       if String.eqb s "h" then Some issued_header
       else if String.eqb s "c" then Some (json_reread <$> {[ "expiresAt" := VInt 15000 ]})
       else None;
     jwt.EncodeSegment s := s;
     jwt.DecodeSegment s := Some s;
     jwt.HMAC _ key msg := ("mac-" ++ key ++ "-" ++ without_byte "." msg)%string;
     jwt.ValidateClaims _ := None |}.



Definition runtime (number : Z) : Runtime :=
  {| environ := {[ "JWT_TEST_SECRET" := "s3cr3t" ]};
     gen_number := number;
     gen_balance := 0;
     gen_time := 1700000000;
     decode_CreateAccountRequest body :=
       if String.eqb body "ada" then
         inl {| req_FirstName := "Ada"; req_LastName := "Lovelace" |}
       else inr (errorString "unexpected end of JSON input");
     decode_TransferRequest body :=
       if String.eqb body "transfer" then inl {| ToAccount := 7; Amount := 100 |}
       else inr (errorString "unexpected end of JSON input");
     conv_overflow _ := min_int64 |}.

Definition rt : Runtime := runtime 424242.

Definition account (id number : Z) : Account :=
  {| ID := id; FirstName := "Ada"; LastName := "Lovelace"; Number := number;
     Balance := 0; CreatedAt := 1700000000 |}.

(** A list-backed driver for [PostgresStorage]. *)
Definition sql : SQL (list Account) :=
  {| sql_insert a db := (None, (db ++ [a])%list);
     sql_select_all db :=
       (inl {| delivered := List.map inl db; rows_Err := None |}, db) |}.

(** The same driver on a connection that breaks after the first row: the
    loop over [rows.Next()] sees one row, and [rows.Err()] holds the cause. *)
Definition sql_breaking : SQL (list Account) :=
  {| sql_insert a db := (None, (db ++ [a])%list);
     sql_select_all db :=
       (inl {| delivered := List.map inl (take 1 db);
               rows_Err := Some (errorString "driver: bad connection") |}, db) |}.

Definition request (method : string) (id token : string) : http.Request :=
  {| http.Method := method;
     http.Header := {[ "X-Jwt-Token" := [token] ]};
     http.Vars := {[ "id" := id ]};
     http.Body := EmptyString |}.

Definition bare_request (method : string) (id : string) : http.Request :=
  {| http.Method := method; http.Header := ∅;
     http.Vars := {[ "id" := id ]}; http.Body := EmptyString |}.

Definition post_request (body : string) : http.Request :=
  {| http.Method := "POST"; http.Header := ∅; http.Vars := ∅; http.Body := body |}.

(** The token [createJWT] issues for [a] with this library and secret. *)
Definition token (a : Account) : string := fst (createJWT (lib a) rt a).

End Toy.

(** ** The Standard Library's binary64, to compare the rounding with *)

(** The integer part of a finite [spec_float]. *)
Definition spec_float_trunc (f : spec_float) : Z :=
  match f with
  | S754_finite s m e =>
      let v := if 0 <=? e then Z.pos m * 2 ^ e else Z.quot (Z.pos m) (2 ^ (- e)) in
      if s then - v else v
  | _ => 0
  end.

Definition float64_samples : list Z :=
  [0; 1; -1; 15000; 999999; 2 ^ 31; 2 ^ 53 - 1; 2 ^ 53; 2 ^ 53 + 1; 2 ^ 53 + 2;
   2 ^ 53 + 3; 2 ^ 54 + 2; 2 ^ 54 + 6; - (2 ^ 53 + 1); - (2 ^ 53 + 3);
   2 ^ 60 + 129; 2 ^ 60 + 128; 2 ^ 60 + 384; 2 ^ 63 - 1; 2 ^ 63 - 513; - 2 ^ 63;
   123456789012345678; 9007199254740993; 4611686018427387905].

(** ** Tactics for runs *)

(** Unfolds the primitive steps of a run. *)
Ltac run_step :=
  unfold permissionDenied, WriteJSON, Encode, on_response, Println, emit,
    s_GetAccountByID, s_DeleteAccount, s_CreateAccount, s_GetAllAccounts, call,
    panic, mbind, Go_bind, mret, Go_ret, encode_error, encoder_succeeds;
  cbn [storage response trace].

(** * Properties *)

(** ** Strings and numbers *)

Example canonical_jwt_header : CanonicalMIMEHeaderKey "x-jwt-token" = "X-Jwt-Token".
Proof. reflexivity. Qed.

Example Atoi_samples :
  Atoi "42" = (42, None) /\ Atoi "-7" = (-7, None) /\ Atoi "+0" = (0, None)
  /\ snd (Atoi "") = Some ErrSyntax /\ snd (Atoi "4x") = Some ErrSyntax
  /\ snd (Atoi "-") = Some ErrSyntax
  /\ Atoi "9223372036854775808" = (max_int64, Some ErrRange).
Proof. vm_compute. repeat split. Qed.

(** The rounding agrees with the IEEE 754 binary64 rounding of the Standard
    Library's specification of floats, on sample integers around the points
    where it stops being exact. *)
Example float64_of_int_agrees_with_binary64 :
  List.map (fun n => float64_trunc (float64_of_int n)) float64_samples
  = List.map (fun n => spec_float_trunc (binary_normalize 53 1024 n 0 false))
      float64_samples.
Proof. vm_compute. reflexivity. Qed.

Lemma split_on_no_sep sep s : has_byte sep s = false -> split_on sep s = [s].
Proof.
  induction s as [|c s IH]; simpl; [done|].
  intros [Hc Hs]%orb_false_elim. rewrite Hc, (IH Hs). done.
Qed.

Lemma split_on_app sep a b :
  has_byte sep a = false ->
  split_on sep (a ++ String sep b) = a :: split_on sep b.
Proof.
  induction a as [|c a IH]; simpl.
  - intros _. by rewrite Ascii.eqb_refl.
  - intros [Hc Ha]%orb_false_elim. rewrite Hc, (IH Ha). done.
Qed.

Lemma split_on_three sep a b c :
  has_byte sep a = false -> has_byte sep b = false -> has_byte sep c = false ->
  split_on sep ((a ++ String sep b) ++ String sep c) = [a; b; c].
Proof.
  intros Ha Hb Hc.
  replace ((a ++ String sep b) ++ String sep c)%string
    with (a ++ String sep (b ++ String sep c))%string.
  - by rewrite (split_on_app _ _ _ Ha), (split_on_app _ _ _ Hb), (split_on_no_sep _ _ Hc).
  - clear. induction a as [|x a IH]; [done|].
    change (String x (a ++ String sep (b ++ String sep c))
            = String x ((a ++ String sep b) ++ String sep c))%string.
    by rewrite IH.
Qed.

Lemma float64_trunc_of_int n : float64_exact n -> float64_trunc (float64_of_int n) = n.
Proof.
  unfold float64_exact. intros Hn.
  destruct (Z.eq_dec (Z.abs n) (2 ^ 53)) as [Heq|Hne].
  - assert (n = 2 ^ 53 \/ n = - 2 ^ 53) as [-> | ->] by lia; reflexivity.
  - assert (Z.log2 (Z.abs n) < 53) as Hlog.
    { destruct (Z.eq_dec (Z.abs n) 0) as [->|Hz]; [reflexivity|].
      apply Z.log2_lt_pow2; lia. }
    unfold float64_of_int. cbv zeta.
    destruct (Z.leb_spec (Z.log2 (Z.abs n) + 1 - 53) 0); [|lia].
    unfold float64_trunc. simpl. lia.
Qed.

Lemma int64_of_float64_of_int ov n :
  float64_exact n -> int64_of_float64 ov (float64_of_int n) = n.
Proof.
  intros Hn. unfold int64_of_float64. cbv zeta.
  rewrite (float64_trunc_of_int _ Hn).
  unfold float64_exact in Hn. unfold in_int64, min_int64, max_int64.
  destruct (Z.leb_spec (- 2 ^ 63) n), (Z.leb_spec n (2 ^ 63 - 1)); simpl; try done; lia.
Qed.

(** ** The steps of a run *)

Section Steps.

Context {σ : Type} `{!Storage σ}.
Variable L : jwt.Lib.
Variable rt : Runtime.

Lemma WriteJSON_fresh status v (st : σ) tr :
  WriteJSON status v {| storage := st; response := http.fresh; trace := tr |}
  = Returned None {| storage := st; response := json_response status v; trace := tr |}.
Proof.
  run_step. unfold json_response, http.Write_, http.WriteHeader, http.Header_Set.
  cbn. by rewrite insert_empty.
Qed.

Lemma permissionDenied_fresh (st : σ) tr :
  permissionDenied {| storage := st; response := http.fresh; trace := tr |}
  = Returned tt (denied_world st tr).
Proof.
  unfold permissionDenied. unfold mbind at 1, Go_bind. by rewrite WriteJSON_fresh.
Qed.

Lemma denied_world_denies (st : σ) tr :
  handler_called tr = false -> denies (Returned tt (denied_world st tr)).
Proof. intros Htr. exists (denied_world st tr). done. Qed.

(** The middleware, step by step, from the outcome of each call it makes. *)

Lemma middleware_invalid_token h r (st : σ) t e :
  validateJWT L rt (Header_Get (http.Header r) "x-jwt-token") = (t, Some e) ->
  withJWTAuth L rt h r (start st) = Returned tt (denied_world st [middleware_line]).
Proof.
  intros Hv. unfold withJWTAuth, start. rewrite Hv.
  unfold Println, emit. unfold mbind at 1, Go_bind. cbn [storage response trace app].
  apply permissionDenied_fresh.
Qed.

Lemma middleware_not_valid h r (st : σ) t :
  validateJWT L rt (Header_Get (http.Header r) "x-jwt-token") = (Some t, None) ->
  jwt.Valid t = false ->
  withJWTAuth L rt h r (start st) = Returned tt (denied_world st [middleware_line]).
Proof.
  intros Hv Hvalid. unfold withJWTAuth, start. rewrite Hv, Hvalid.
  unfold Println, emit. unfold mbind at 1, Go_bind. cbn [storage response trace app negb].
  apply permissionDenied_fresh.
Qed.

Lemma middleware_bad_id h r (st : σ) t id e :
  validateJWT L rt (Header_Get (http.Header r) "x-jwt-token") = (Some t, None) ->
  jwt.Valid t = true ->
  getId r = (id, Some e) ->
  withJWTAuth L rt h r (start st) = Returned tt (denied_world st [middleware_line]).
Proof.
  intros Hv Hvalid Hid. unfold withJWTAuth, start. rewrite Hv, Hvalid, Hid.
  unfold Println, emit. unfold mbind at 1, Go_bind. cbn [storage response trace app negb].
  apply permissionDenied_fresh.
Qed.

Lemma middleware_lookup_failed h r (st st' : σ) t id a e :
  validateJWT L rt (Header_Get (http.Header r) "x-jwt-token") = (Some t, None) ->
  jwt.Valid t = true ->
  getId r = (id, None) ->
  GetAccountByID id st = ((a, Some e), st') ->
  withJWTAuth L rt h r (start st)
  = Returned tt (denied_world st' [middleware_line; EvStorage (CallGetAccountByID id)]).
Proof.
  intros Hv Hvalid Hid Hget. unfold withJWTAuth, start. rewrite Hv, Hvalid, Hid.
  unfold Println, emit, s_GetAccountByID, call.
  unfold mbind at 1 2, Go_bind. cbn [storage response trace app negb].
  rewrite Hget. apply permissionDenied_fresh.
Qed.

Lemma middleware_compare h r (st st' : σ) t id a claims f :
  validateJWT L rt (Header_Get (http.Header r) "x-jwt-token") = (Some t, None) ->
  jwt.Valid t = true ->
  getId r = (id, None) ->
  GetAccountByID id st = ((Some a, None), st') ->
  jwt.Claims t = jwt.MapClaims claims ->
  claims !! "accountNumber" = Some (VFloat64 f) ->
  withJWTAuth L rt h r (start st)
  = if Number a =? int64_of_float64 (conv_overflow rt) f then
      h r {| storage := st'; response := http.fresh;
             trace := [middleware_line; EvStorage (CallGetAccountByID id); EvHandlerFunc] |}
    else
      Returned tt (denied_world st' [middleware_line; EvStorage (CallGetAccountByID id)]).
Proof.
  intros Hv Hvalid Hid Hget Hclaims Hnum. unfold withJWTAuth, start.
  rewrite Hv, Hvalid, Hid.
  unfold Println, emit, s_GetAccountByID, call.
  unfold mbind at 1 2, Go_bind. cbn [storage response trace app negb].
  rewrite Hget, Hclaims, Hnum. cbv [default from_option Datatypes.id].
  destruct (Number a =? _); cbn [negb].
  - reflexivity.
  - apply permissionDenied_fresh.
Qed.

Lemma middleware_nil_account h r (st st' : σ) t id claims f :
  validateJWT L rt (Header_Get (http.Header r) "x-jwt-token") = (Some t, None) ->
  jwt.Valid t = true ->
  getId r = (id, None) ->
  GetAccountByID id st = ((None, None), st') ->
  jwt.Claims t = jwt.MapClaims claims ->
  claims !! "accountNumber" = Some (VFloat64 f) ->
  withJWTAuth L rt h r (start st)
  = Panicked NilDereference
      {| storage := st'; response := http.fresh;
         trace := [middleware_line; EvStorage (CallGetAccountByID id)] |}.
Proof.
  intros Hv Hvalid Hid Hget Hclaims Hnum. unfold withJWTAuth, start.
  rewrite Hv, Hvalid, Hid.
  unfold Println, emit, s_GetAccountByID, call.
  unfold mbind at 1 2, Go_bind. cbn [storage response trace app negb].
  by rewrite Hget, Hclaims, Hnum.
Qed.

Lemma middleware_no_number h r (st st' : σ) t id a claims :
  validateJWT L rt (Header_Get (http.Header r) "x-jwt-token") = (Some t, None) ->
  jwt.Valid t = true ->
  getId r = (id, None) ->
  GetAccountByID id st = ((a, None), st') ->
  jwt.Claims t = jwt.MapClaims claims ->
  (forall f, claims !! "accountNumber" <> Some (VFloat64 f)) ->
  withJWTAuth L rt h r (start st)
  = Panicked TypeAssertion
      {| storage := st'; response := http.fresh;
         trace := [middleware_line; EvStorage (CallGetAccountByID id)] |}.
Proof.
  intros Hv Hvalid Hid Hget Hclaims Hnum. unfold withJWTAuth, start.
  rewrite Hv, Hvalid, Hid.
  unfold Println, emit, s_GetAccountByID, call.
  unfold mbind at 1 2, Go_bind. cbn [storage response trace app negb].
  rewrite Hget, Hclaims.
  destruct (claims !! "accountNumber") as [[| | | |f| | |]|] eqn:E; try done.
  by destruct (Hnum f).
Qed.

End Steps.

(** ** Token validation *)

Section Validation.

Variable L : jwt.Lib.
Variable rt : Runtime.

Lemma issued_header_alg : issued_header !! "alg" = Some (VString "HS256").
Proof. unfold issued_header. by rewrite lookup_insert_ne, lookup_singleton_eq. Qed.

Lemma issued_header_reread : json_reread <$> issued_header = issued_header.
Proof. unfold issued_header. by rewrite fmap_insert, map_fmap_singleton. Qed.

Lemma issued_claims_number account :
  (json_reread <$> issued_claims account) !! "accountNumber"
  = Some (VFloat64 (float64_of_int (Number account))).
Proof.
  unfold issued_claims.
  by rewrite lookup_fmap, lookup_insert_ne, lookup_singleton_eq.
Qed.

Lemma createJWT_eq account :
  createJWT L rt account
  = (((jwt.EncodeJSON L issued_header ++ "." ++ jwt.EncodeJSON L (issued_claims account))
      ++ "."
      ++ jwt.EncodeSegment L (issued_sig L (Getenv rt "JWT_TEST_SECRET") account))%string,
     None).
Proof. reflexivity. Qed.

(** A token string with other than three segments is refused; the empty
    string is one. *)
Lemma validateJWT_empty :
  exists e, validateJWT L rt EmptyString = (None, Some e).
Proof. eexists. reflexivity. Qed.

(** What a successful validation says about the token string. *)
Lemma validateJWT_ok_inv tokenString ot :
  validateJWT L rt tokenString = (ot, None) ->
  exists p0 p1 p2 header claims alg h,
    split_on "." tokenString = [p0; p1; p2]
    /\ jwt.DecodeJSON L p0 = Some header
    /\ jwt.DecodeJSON L p1 = Some claims
    /\ header !! "alg" = Some (VString alg)
    /\ jwt.GetSigningMethod alg = Some (jwt.SigningMethodHMAC h)
    /\ jwt.DecodeSegment L p2
       = Some (jwt.HMAC L h (Getenv rt "JWT_TEST_SECRET") (p0 ++ "." ++ p1)%string)
    /\ jwt.ValidateClaims L claims = None
    /\ ot = Some {| jwt.Raw := tokenString;
                    jwt.Method := Some (jwt.SigningMethodHMAC h);
                    jwt.Header := header;
                    jwt.Claims := jwt.MapClaims claims;
                    jwt.Signature :=
                      jwt.HMAC L h (Getenv rt "JWT_TEST_SECRET") (p0 ++ "." ++ p1)%string;
                    jwt.Valid := true |}.
Proof.
  unfold validateJWT, jwt.Parse, jwt.ParseUnverified, keyFunc.
  destruct (split_on "." tokenString) as [|p0 [|p1 [|p2 [|? ?]]]]; try done.
  destruct (jwt.DecodeJSON L p0) as [header|] eqn:Hh; [|done].
  destruct (jwt.DecodeJSON L p1) as [claims|] eqn:Hc; [|done].
  destruct (header !! "alg") as [[| | | | |alg| |]|] eqn:Halg; try done.
  destruct (jwt.GetSigningMethod alg) as [[h|h|h|h| |]|] eqn:Hm; try done.
  cbn [jwt.as_SigningMethodHMAC jwt.Method jwt.Claims jwt.claims_map jwt.Raw jwt.Header].
  destruct (jwt.DecodeSegment L p2) as [sig|] eqn:Hs; [|done].
  cbn [jwt.Verify].
  destruct (String.eqb_spec sig
              (jwt.HMAC L h (Getenv rt "JWT_TEST_SECRET") (p0 ++ "." ++ p1)%string))
    as [->|]; [|done].
  destruct (jwt.ValidateClaims L claims) eqn:Hval; [done|].
  intros [= <-]. by exists p0, p1, p2, header, claims, alg, h.
Qed.

Lemma validateJWT_ok_valid tokenString ot :
  validateJWT L rt tokenString = (ot, None) ->
  exists t claims, ot = Some t /\ jwt.Valid t = true /\ jwt.Claims t = jwt.MapClaims claims.
Proof.
  intros (p0 & p1 & p2 & header & claims & alg & h & _ & _ & _ & _ & _ & _ & _ & ->)%validateJWT_ok_inv.
  by eexists _, claims.
Qed.

End Validation.

(** ** Tokens the server issued *)

Section Issued.

Variable L : jwt.Lib.

Lemma issued_token_segments rt0 account :
  let secret := Getenv rt0 "JWT_TEST_SECRET" in
  faithful L issued_header (issued_claims account) (issued_sig L secret account) ->
  split_on "." (fst (createJWT L rt0 account))
  = [jwt.EncodeJSON L issued_header; jwt.EncodeJSON L (issued_claims account);
     jwt.EncodeSegment L (issued_sig L secret account)].
Proof.
  intros secret [Hh Hc Hs _ _ _]. rewrite createJWT_eq. cbn [fst].
  exact (split_on_three "." _ _ _ Hh Hc Hs).
Qed.

(** Whatever the secret at validation time: if the token validates, its
    claims are the issued ones, reread from JSON. *)
Lemma validateJWT_issued rt0 rt account ot :
  faithful L issued_header (issued_claims account)
    (issued_sig L (Getenv rt0 "JWT_TEST_SECRET") account) ->
  validateJWT L rt (fst (createJWT L rt0 account)) = (ot, None) ->
  exists t, ot = Some t /\ jwt.Valid t = true
    /\ jwt.Claims t = jwt.MapClaims (json_reread <$> issued_claims account).
Proof.
  intros Hf Hv.
  pose proof (issued_token_segments rt0 account Hf) as Hsplit.
  apply validateJWT_ok_inv in Hv
    as (p0 & p1 & p2 & header & claims & alg & h & Hs & _ & Hc & _ & _ & _ & _ & ->).
  rewrite Hsplit in Hs. injection Hs as <- <- <-.
  rewrite (claims_decode _ _ _ _ Hf) in Hc. injection Hc as <-.
  by eexists.
Qed.

(** Under the secret it was issued with, the token validates, provided the
    library accepts the issued claims. *)
Lemma validateJWT_issued_ok rt0 rt account :
  faithful L issued_header (issued_claims account)
    (issued_sig L (Getenv rt0 "JWT_TEST_SECRET") account) ->
  Getenv rt "JWT_TEST_SECRET" = Getenv rt0 "JWT_TEST_SECRET" ->
  jwt.ValidateClaims L (json_reread <$> issued_claims account) = None ->
  exists t, validateJWT L rt (fst (createJWT L rt0 account)) = (Some t, None)
    /\ jwt.Valid t = true
    /\ jwt.Claims t = jwt.MapClaims (json_reread <$> issued_claims account).
Proof.
  intros Hf Hsecret Hval.
  pose proof (issued_token_segments rt0 account Hf) as Hsplit.
  unfold validateJWT, jwt.Parse, jwt.ParseUnverified, keyFunc.
  rewrite Hsplit, (header_decodes _ _ _ _ Hf), (claims_decode _ _ _ _ Hf).
  rewrite issued_header_reread, issued_header_alg.
  change (jwt.GetSigningMethod "HS256") with (Some (jwt.SigningMethodHMAC jwt.SHA256)).
  cbn [jwt.as_SigningMethodHMAC jwt.Method jwt.Claims jwt.claims_map jwt.Raw jwt.Header].
  rewrite (sig_decodes _ _ _ _ Hf). cbn [jwt.Verify].
  rewrite Hsecret. unfold issued_sig. rewrite String.eqb_refl, Hval.
  by eexists.
Qed.

End Issued.

(** ** The stand-in library is faithful on its token *)

Lemma Toy_lib_faithful a :
  faithful (Toy.lib a) issued_header (issued_claims a)
    (issued_sig (Toy.lib a) "s3cr3t" a).
Proof.
  split; cbn [Toy.lib jwt.EncodeJSON jwt.DecodeJSON jwt.EncodeSegment jwt.DecodeSegment].
  - by rewrite issued_header_alg.
  - unfold issued_claims. by rewrite lookup_insert_ne, lookup_singleton_ne.
  - reflexivity.
  - by rewrite issued_header_alg, issued_header_reread.
  - unfold issued_claims at 1. by rewrite lookup_insert_ne, lookup_singleton_ne.
  - reflexivity.
Qed.

(** ** C1: a token issued for another account *)

(** C1 (as amended).  A request on the protected route for the identifier of
    account A, which the store resolves to A, that presents the token issued
    for an account B whose number differs from A's and is held exactly by a
    float64 (magnitude at most 2^53), is denied by the middleware: the run
    returns with the uniform denial on the writer and the wrapped handler is
    not called, whatever the handler and whatever the secret at validation
    time. *)
Theorem token_of_other_account_is_denied
    {σ : Type} `{!Storage σ} (L : jwt.Lib) (rt0 rt : Runtime) (A B : Account)
    (handlerFunc : http.Request -> Go σ unit) (r : http.Request)
    (st st' : σ) (id : Z) :
  faithful L issued_header (issued_claims B)
    (issued_sig L (Getenv rt0 "JWT_TEST_SECRET") B) ->
  Header_Get (http.Header r) "x-jwt-token" = fst (createJWT L rt0 B) ->
  getId r = (id, None) ->
  GetAccountByID id st = ((Some A, None), st') ->
  float64_exact (Number B) ->
  Number A <> Number B ->
  denies (withJWTAuth L rt handlerFunc r (start st)).
Proof.
  intros Hf Hhdr Hid Hget Hexact Hne.
  destruct (validateJWT L rt (Header_Get (http.Header r) "x-jwt-token"))
    as [ot [e|]] eqn:Hv.
  - rewrite (middleware_invalid_token L rt _ _ _ _ _ Hv).
    by apply denied_world_denies.
  - pose proof Hv as Hv'. rewrite Hhdr in Hv'.
    apply (validateJWT_issued L rt0 rt B ot Hf) in Hv' as (t & -> & Hvalid & Hclaims).
    rewrite (middleware_compare L rt _ _ _ _ _ _ _ _ _ Hv Hvalid Hid Hget Hclaims
               (issued_claims_number B)).
    rewrite (int64_of_float64_of_int _ _ Hexact).
    destruct (Z.eqb_spec (Number A) (Number B)) as [|_]; [done|].
    by apply denied_world_denies.
Qed.

Lemma token_of_other_account_is_denied_witness :
  denies
    (withJWTAuth (σ := gmap Z Account) (Toy.lib (Toy.account 2 1002)) Toy.rt
       (makeHTTPHandlerFunc handleAccountByID)
       (Toy.request "GET" "1" (Toy.token (Toy.account 2 1002)))
       (start {[ 1 := Toy.account 1 1001; 2 := Toy.account 2 1002 ]})).
Proof.
  apply (token_of_other_account_is_denied (Toy.lib (Toy.account 2 1002)) Toy.rt Toy.rt
           (Toy.account 1 1001) (Toy.account 2 1002) _ _
           {[ 1 := Toy.account 1 1001; 2 := Toy.account 2 1002 ]}
           {[ 1 := Toy.account 1 1001; 2 := Toy.account 2 1002 ]} 1).
  - apply Toy_lib_faithful.
  - reflexivity.
  - reflexivity.
  - reflexivity.
  - unfold float64_exact. simpl. lia.
  - simpl. lia.
Defined.

(** C1 as stated fails beyond 2^53: the token issued for account number
    2^53 + 1 is reread as the float64 2^53, so it opens the route of the
    account whose number is 2^53.  The handler is called and returns that
    account with status 200. *)
Lemma token_of_other_account_opens_route :
  let A := Toy.account 1 (2 ^ 53) in
  let B := Toy.account 2 (2 ^ 53 + 1) in
  let run :=
    registered (σ := gmap Z Account) (Toy.lib B) Toy.rt RouteAccountByID
      (Toy.request "GET" "1" (Toy.token B)) (start {[ 1 := A; 2 := B ]}) in
  Number A <> Number B
  /\ (exists w', run = Returned tt w'
        /\ response w' = json_response 200 (JAccount (Some A))
        /\ handler_called (trace w') = true)
  /\ ~ denies run.
Proof.
  cbv zeta. split; [simpl; lia|].
  assert (exists w',
    registered (σ := gmap Z Account) (Toy.lib (Toy.account 2 (2 ^ 53 + 1))) Toy.rt
      RouteAccountByID (Toy.request "GET" "1" (Toy.token (Toy.account 2 (2 ^ 53 + 1))))
      (start {[ 1 := Toy.account 1 (2 ^ 53); 2 := Toy.account 2 (2 ^ 53 + 1) ]})
    = Returned tt w'
    /\ response w' = json_response 200 (JAccount (Some (Toy.account 1 (2 ^ 53))))
    /\ handler_called (trace w') = true) as (w' & Hrun & Hresp & Hcalled).
  { eexists. split; [vm_compute; reflexivity|]. split; vm_compute; reflexivity. }
  split.
  - by exists w'.
  - intros (w'' & Hrun' & _ & Hnot). rewrite Hrun in Hrun'.
    injection Hrun' as <-. congruence.
Qed.

(** The same holds with every library that codes the token faithfully and
    accepts its claims: under the secret of issue, the token for the number
    2^53 + 1 hands the request for the account numbered 2^53 over to the
    handler. *)
Lemma token_for_inexact_number_passes
    {σ : Type} `{!Storage σ} (L : jwt.Lib) (rt : Runtime) (A B : Account)
    (handlerFunc : http.Request -> Go σ unit) (r : http.Request)
    (st st' : σ) (id : Z) :
  Number A = 2 ^ 53 ->
  Number B = 2 ^ 53 + 1 ->
  faithful L issued_header (issued_claims B)
    (issued_sig L (Getenv rt "JWT_TEST_SECRET") B) ->
  jwt.ValidateClaims L (json_reread <$> issued_claims B) = None ->
  Header_Get (http.Header r) "x-jwt-token" = fst (createJWT L rt B) ->
  getId r = (id, None) ->
  GetAccountByID id st = ((Some A, None), st') ->
  withJWTAuth L rt handlerFunc r (start st)
  = handlerFunc r
      {| storage := st'; response := http.fresh;
         trace := [middleware_line; EvStorage (CallGetAccountByID id); EvHandlerFunc] |}.
Proof.
  intros HA HB Hf Hval Hhdr Hid Hget.
  destruct (validateJWT_issued_ok L rt rt B Hf eq_refl Hval) as (t & Hv & Hvalid & Hclaims).
  rewrite <- Hhdr in Hv.
  rewrite (middleware_compare L rt _ _ _ _ _ _ _ _ _ Hv Hvalid Hid Hget Hclaims
             (issued_claims_number B)).
  by rewrite HA, HB.
Qed.

(** ** C2: the token issued for the account itself *)

Section Handlers.

Context {σ : Type} `{!Storage σ}.

(** The handler of the protected route, on a GET whose lookup succeeds. *)
Lemma handleAccountByID_get r (st st' : σ) tr id account :
  http.Method r = http.MethodGet ->
  getId r = (id, None) ->
  GetAccountByID id st = ((account, None), st') ->
  makeHTTPHandlerFunc handleAccountByID r
    {| storage := st; response := http.fresh; trace := tr |}
  = Returned tt {| storage := st'; response := json_response http.StatusOK (JAccount account);
                   trace := tr ++ [EvStorage (CallGetAccountByID id)] |}.
Proof.
  intros Hm Hid Hget. unfold makeHTTPHandlerFunc, handleAccountByID.
  rewrite Hm, Hid. cbn [String.eqb Ascii.eqb Bool.eqb http.MethodGet].
  unfold s_GetAccountByID, call, mbind, Go_bind, mret, Go_ret.
  cbn [storage response trace]. rewrite Hget.
  by rewrite WriteJSON_fresh.
Qed.

(** The handler of the collection route, on a POST that the store accepts:
    the token of the new account is printed and the account returned. *)
Lemma handleAccount_post L rt r (st st' : σ) req :
  let account := NewAccount rt (req_FirstName req) (req_LastName req) in
  http.Method r = http.MethodPost ->
  decode_CreateAccountRequest rt (http.Body r) = inl req ->
  CreateAccount account st = (None, st') ->
  makeHTTPHandlerFunc (handleAccount L rt) r (start st)
  = Returned tt
      {| storage := st';
         response := json_response http.StatusOK (JAccount (Some account));
         trace := [EvStorage (CallCreateAccount account);
                   EvPrintln ("JWT token: " ++ fst (createJWT L rt account))] |}.
Proof.
  intros account Hm Hdec Hcreate.
  unfold makeHTTPHandlerFunc, handleAccount, handleCreateAccount, start.
  rewrite Hm, Hdec. cbn [String.eqb Ascii.eqb Bool.eqb http.MethodGet http.MethodPost].
  fold account. rewrite createJWT_eq.
  unfold s_CreateAccount, call, Println, emit, mbind, Go_bind, mret, Go_ret.
  cbn [storage response trace app fst]. rewrite Hcreate.
  cbn [storage response trace app fst].
  by rewrite WriteJSON_fresh.
Qed.

End Handlers.

(** C2 (as amended).  Let an account be created through the collection route
    (a POST that the store accepts), with a number that a float64 holds
    exactly, and let the store afterwards resolve an identifier to the stored
    account A carrying that number, without changing its state.  Then a GET
    on the single-resource route for that identifier, presenting in
    [x-jwt-token] the token printed at creation and validated under the same
    secret, passes the middleware and ends with status 200 and body A. *)
Theorem created_account_is_served_with_own_token
    {σ : Type} `{!Storage σ} (L : jwt.Lib) (rt rt' : Runtime)
    (post get : http.Request) (req : CreateAccountRequest)
    (st0 st1 : σ) (A : Account) (id : Z) :
  let account := NewAccount rt (req_FirstName req) (req_LastName req) in
  let token := fst (createJWT L rt account) in
  http.Method post = http.MethodPost ->
  decode_CreateAccountRequest rt (http.Body post) = inl req ->
  CreateAccount account st0 = (None, st1) ->
  faithful L issued_header (issued_claims account)
    (issued_sig L (Getenv rt "JWT_TEST_SECRET") account) ->
  jwt.ValidateClaims L (json_reread <$> issued_claims account) = None ->
  Getenv rt' "JWT_TEST_SECRET" = Getenv rt "JWT_TEST_SECRET" ->
  http.Method get = http.MethodGet ->
  Header_Get (http.Header get) "x-jwt-token" = token ->
  getId get = (id, None) ->
  GetAccountByID id st1 = ((Some A, None), st1) ->
  Number A = Number account ->
  float64_exact (Number account) ->
  registered L rt RouteAccount post (start st0)
  = Returned tt
      {| storage := st1;
         response := json_response http.StatusOK (JAccount (Some account));
         trace := [EvStorage (CallCreateAccount account);
                   EvPrintln ("JWT token: " ++ token)] |}
  /\ registered L rt' RouteAccountByID get (start st1)
     = Returned tt
         {| storage := st1;
            response := json_response http.StatusOK (JAccount (Some A));
            trace := [middleware_line; EvStorage (CallGetAccountByID id);
                      EvHandlerFunc; EvStorage (CallGetAccountByID id)] |}.
Proof.
  intros account token Hpost Hdec Hcreate Hf Hval Hsecret Hget Hhdr Hid Hlookup Hnum Hexact.
  split.
  - exact (handleAccount_post L rt post st0 st1 req Hpost Hdec Hcreate).
  - cbn [registered].
    destruct (validateJWT_issued_ok L rt rt' account Hf Hsecret Hval)
      as (t & Hv & Hvalid & Hclaims).
    fold token in Hv. rewrite <- Hhdr in Hv.
    rewrite (middleware_compare L rt' _ _ _ _ _ _ _ _ _ Hv Hvalid Hid Hlookup Hclaims
               (issued_claims_number account)).
    rewrite (int64_of_float64_of_int _ _ Hexact), Hnum, Z.eqb_refl.
    exact (handleAccountByID_get get st1 st1 _ id (Some A) Hget Hid Hlookup).
Qed.

Lemma created_account_is_served_with_own_token_witness :
  let account := NewAccount Toy.rt "Ada" "Lovelace" in
  let stored := Toy.account 1 424242 in
  registered (σ := gmap Z Account) (Toy.lib account) Toy.rt RouteAccount
    (Toy.post_request "ada") (start ∅)
  = Returned tt
      {| storage := {[ 1 := stored ]};
         response := json_response 200 (JAccount (Some account));
         trace := [EvStorage (CallCreateAccount account);
                   EvPrintln "JWT token: h.c.mac-s3cr3t-hc"] |}
  /\ registered (σ := gmap Z Account) (Toy.lib account) Toy.rt RouteAccountByID
       (Toy.request "GET" "1" "h.c.mac-s3cr3t-hc") (start {[ 1 := stored ]})
     = Returned tt
         {| storage := {[ 1 := stored ]};
            response := json_response 200 (JAccount (Some stored));
            trace := [middleware_line; EvStorage (CallGetAccountByID 1);
                      EvHandlerFunc; EvStorage (CallGetAccountByID 1)] |}.
Proof.
  cbv zeta.
  apply (created_account_is_served_with_own_token
           (Toy.lib (NewAccount Toy.rt "Ada" "Lovelace")) Toy.rt Toy.rt
           (Toy.post_request "ada") (Toy.request "GET" "1" "h.c.mac-s3cr3t-hc")
           {| req_FirstName := "Ada"; req_LastName := "Lovelace" |}
           ∅ {[ 1 := Toy.account 1 424242 ]} (Toy.account 1 424242) 1).
  - reflexivity.
  - reflexivity.
  - vm_compute. reflexivity.
  - apply Toy_lib_faithful.
  - reflexivity.
  - reflexivity.
  - reflexivity.
  - reflexivity.
  - reflexivity.
  - reflexivity.
  - reflexivity.
  - unfold float64_exact. simpl. lia.
Defined.

(** C2 as stated fails in two ways.  On the store of the repository the
    lookup of the middleware yields a nil account and a nil error, and the
    request panics at [account.Number].  On a store that keeps the contract,
    an account whose number is 2^53 + 1 is refused with its own token,
    because the claim is reread as the float64 2^53. *)
Lemma created_account_is_not_always_served :
  let account := NewAccount Toy.rt "Ada" "Lovelace" in
  let big := NewAccount (Toy.runtime (2 ^ 53 + 1)) "Ada" "Lovelace" in
  (@registered (list Account) (PostgresStorage_Storage Toy.sql) _ (Toy.lib account) Toy.rt
     RouteAccount (Toy.post_request "ada") (start [])
   = Returned tt
       {| storage := [account];
          response := json_response 200 (JAccount (Some account));
          trace := [EvStorage (CallCreateAccount account);
                    EvPrintln "JWT token: h.c.mac-s3cr3t-hc"] |}
   /\ @registered (list Account) (PostgresStorage_Storage Toy.sql) _ (Toy.lib account) Toy.rt
        RouteAccountByID (Toy.request "GET" "1" "h.c.mac-s3cr3t-hc") (start [account])
      = Panicked NilDereference
          {| storage := [account]; response := http.fresh;
             trace := [middleware_line; EvStorage (CallGetAccountByID 1)] |})
  /\ (registered (σ := gmap Z Account) (Toy.lib big) (Toy.runtime (2 ^ 53 + 1))
        RouteAccount (Toy.post_request "ada") (start ∅)
      = Returned tt
          {| storage := {[ 1 := Toy.account 1 (2 ^ 53 + 1) ]};
             response := json_response 200 (JAccount (Some big));
             trace := [EvStorage (CallCreateAccount big);
                       EvPrintln "JWT token: h.c.mac-s3cr3t-hc"] |}
      /\ registered (σ := gmap Z Account) (Toy.lib big) (Toy.runtime (2 ^ 53 + 1))
           RouteAccountByID (Toy.request "GET" "1" "h.c.mac-s3cr3t-hc")
           (start {[ 1 := Toy.account 1 (2 ^ 53 + 1) ]})
         = Returned tt
             (denied_world {[ 1 := Toy.account 1 (2 ^ 53 + 1) ]}
                [middleware_line; EvStorage (CallGetAccountByID 1)])).
Proof. cbv zeta. repeat split; vm_compute; reflexivity. Qed.

(** ** C3: signing methods outside the HMAC family *)

Lemma GetSigningMethod_HMAC alg h :
  jwt.GetSigningMethod alg = Some (jwt.SigningMethodHMAC h) ->
  alg ∈ ["HS256"; "HS384"; "HS512"].
Proof.
  unfold jwt.GetSigningMethod. intros [_ Heq]%List.find_some.
  apply String.eqb_eq in Heq as <-. destruct h; set_solver.
Qed.

(** C3.  The key function refuses every token whose method is not of the
    HMAC type.  So a token string of three segments whose header decodes and
    declares an algorithm other than HS256, HS384 and HS512 fails validation,
    and a request presenting it on the protected route is denied before the
    store or the handler is reached.  When the token is otherwise well-formed
    (its claims decode, the algorithm is a registered one), the failure is
    the error of the key function, wrapped by the parser. *)
Theorem non_HMAC_token_is_rejected
    {σ : Type} `{!Storage σ} (L : jwt.Lib) (rt : Runtime)
    (tokenString p0 p1 p2 alg : string) (header : gmap string any) :
  split_on "." tokenString = [p0; p1; p2] ->
  jwt.DecodeJSON L p0 = Some header ->
  header !! "alg" = Some (VString alg) ->
  alg ∉ ["HS256"; "HS384"; "HS512"] ->
  (forall secret token,
      jwt.as_SigningMethodHMAC (jwt.Method token) = None ->
      keyFunc secret token
      = (None, Some (errorString ("unexpected signing method: "
                                  ++ fmt_v (default VNil (jwt.Header token !! "alg"))))))
  /\ (exists t e, validateJWT L rt tokenString = (Some t, Some e)
        /\ (forall claims m,
              jwt.DecodeJSON L p1 = Some claims ->
              jwt.GetSigningMethod alg = Some m ->
              e = jwt.newError "error while executing keyfunc" jwt.ErrTokenUnverifiable
                    [errorString ("unexpected signing method: " ++ alg)]))
  /\ (forall (handlerFunc : http.Request -> Go σ unit) r (st : σ),
        Header_Get (http.Header r) "x-jwt-token" = tokenString ->
        withJWTAuth L rt handlerFunc r (start st)
        = Returned tt (denied_world st [middleware_line])).
Proof.
  intros Hsplit Hh Halg Hnot.
  assert (exists t e, validateJWT L rt tokenString = (Some t, Some e)
            /\ (forall claims m,
                  jwt.DecodeJSON L p1 = Some claims ->
                  jwt.GetSigningMethod alg = Some m ->
                  e = jwt.newError "error while executing keyfunc" jwt.ErrTokenUnverifiable
                        [errorString ("unexpected signing method: " ++ alg)]))
    as (t & e & Hv & He).
  { unfold validateJWT, jwt.Parse, jwt.ParseUnverified, keyFunc.
    rewrite Hsplit, Hh.
    destruct (jwt.DecodeJSON L p1) as [claims|] eqn:Hc;
      [|eexists _, _; split; [reflexivity|]; intros ? ? [=]].
    rewrite Halg.
    destruct (jwt.GetSigningMethod alg) as [m|] eqn:Hm.
    - destruct m as [h|h|h|h| |];
        cbn [jwt.as_SigningMethodHMAC jwt.Method jwt.Header];
        try (rewrite Halg; eexists _, _; split; [reflexivity|];
             intros ? ? _ _; reflexivity).
      destruct Hnot. by apply (GetSigningMethod_HMAC alg h).
    - eexists _, _. split; [reflexivity|]. intros ? m _ [=]. }
  split; [|split].
  - intros secret token Hm. unfold keyFunc. by rewrite Hm.
  - by exists t, e.
  - intros handlerFunc r st Hhdr. rewrite <- Hhdr in Hv.
    exact (middleware_invalid_token L rt handlerFunc r st _ _ Hv).
Qed.

Lemma non_HMAC_token_is_rejected_witness :
  let L := Toy.lib (Toy.account 1 7) in
  let L' :=
    {| jwt.EncodeJSON := jwt.EncodeJSON L;
       jwt.DecodeJSON s :=
         if String.eqb s "rs" then Some {[ "typ" := VString "JWT"; "alg" := VString "RS256" ]}
         else jwt.DecodeJSON L s;
       jwt.EncodeSegment := jwt.EncodeSegment L;
       jwt.DecodeSegment := jwt.DecodeSegment L;
       jwt.HMAC := jwt.HMAC L;
       jwt.ValidateClaims := jwt.ValidateClaims L |} in
  withJWTAuth (σ := gmap Z Account) L' Toy.rt (makeHTTPHandlerFunc handleAccountByID)
    (Toy.request "GET" "1" "rs.c.mac-s3cr3t") (start {[ 1 := Toy.account 1 7 ]})
  = Returned tt (denied_world {[ 1 := Toy.account 1 7 ]} [middleware_line]).
Proof.
  cbv zeta.
  refine (proj2 (proj2 (non_HMAC_token_is_rejected (σ := gmap Z Account) _ Toy.rt
            "rs.c.mac-s3cr3t" "rs" "c" "mac-s3cr3t" "RS256"
            {[ "typ" := VString "JWT"; "alg" := VString "RS256" ]} _ _ _ _)) _ _ _ _).
  - reflexivity.
  - reflexivity.
  - reflexivity.
  - intros Hin. repeat (apply elem_of_cons in Hin as [Hin|Hin]; [discriminate Hin|]).
    by apply elem_of_nil in Hin.
  - reflexivity.
Defined.

(** ** C4: no token at all *)

Lemma Header_Get_absent (h : gmap string (list string)) key :
  h !! CanonicalMIMEHeaderKey key = None -> Header_Get h key = EmptyString.
Proof. unfold Header_Get. by intros ->. Qed.

(** C4.  A request on the protected route without an [x-jwt-token] header,
    or with an empty one, is denied at the validation of the token: the run
    returns the uniform denial, the store is as it was, and the trace holds
    the line of the middleware and nothing else - no call of a store method,
    the lookup of the middleware included, and no call of the handler. *)
Theorem missing_token_is_denied_before_any_lookup
    {σ : Type} `{!Storage σ} (L : jwt.Lib) (rt : Runtime)
    (handlerFunc : http.Request -> Go σ unit) (r : http.Request) (st : σ) :
  Header_Get (http.Header r) "x-jwt-token" = EmptyString ->
  exists w',
    withJWTAuth L rt handlerFunc r (start st) = Returned tt w'
    /\ response w' = denied_response
    /\ storage w' = st
    /\ trace w' = [middleware_line]
    /\ store_calls (trace w') = []
    /\ handler_called (trace w') = false.
Proof.
  intros Hhdr. exists (denied_world st [middleware_line]).
  split; [|done].
  destruct (validateJWT_empty L rt) as [e He]. rewrite <- Hhdr in He.
  exact (middleware_invalid_token L rt handlerFunc r st _ _ He).
Qed.

Lemma missing_token_is_denied_before_any_lookup_witness :
  exists w',
    withJWTAuth (σ := gmap Z Account) (Toy.lib (Toy.account 1 7)) Toy.rt
      (makeHTTPHandlerFunc handleAccountByID) (Toy.bare_request "GET" "1")
      (start {[ 1 := Toy.account 1 7 ]})
    = Returned tt w'
    /\ response w' = denied_response
    /\ storage w' = {[ 1 := Toy.account 1 7 ]}
    /\ trace w' = [middleware_line]
    /\ store_calls (trace w') = []
    /\ handler_called (trace w') = false.
Proof.
  apply (missing_token_is_denied_before_any_lookup (σ := gmap Z Account)).
  reflexivity.
Defined.

(** ** The outcomes of the middleware *)

Section Outcomes.

Context {σ : Type} `{!Storage σ}.
Variable L : jwt.Lib.
Variable rt : Runtime.

(** A run of the middleware ends in one of three ways: the uniform denial,
    a panic before the handler, or the call of the handler on a writer that
    is still fresh. *)
Lemma middleware_outcomes (h : http.Request -> Go σ unit) r (st : σ) :
  let run := withJWTAuth L rt h r (start st) in
  (exists st' tr, run = Returned tt (denied_world st' tr)
      /\ handler_called tr = false)
  \/ (exists p st' tr, run = Panicked p {| storage := st'; response := http.fresh; trace := tr |}
      /\ handler_called tr = false)
  \/ (exists st' tr, run = h r {| storage := st'; response := http.fresh; trace := tr |}
      /\ handler_called tr = true).
Proof.
  cbv zeta.
  destruct (validateJWT L rt (Header_Get (http.Header r) "x-jwt-token"))
    as [ot [e|]] eqn:Hv.
  { left. eexists _, _. split; [exact (middleware_invalid_token L rt h r st _ _ Hv)|done]. }
  destruct (validateJWT_ok_valid L rt _ _ Hv) as (t & claims & -> & Hvalid & Hclaims).
  destruct (getId r) as [id [e|]] eqn:Hid.
  { left. eexists _, _.
    split; [exact (middleware_bad_id L rt h r st _ _ _ Hv Hvalid Hid)|done]. }
  destruct (GetAccountByID id st) as [[a [e|]] st'] eqn:Hget.
  { left. eexists _, _.
    split; [exact (middleware_lookup_failed L rt h r st st' _ _ _ _ Hv Hvalid Hid Hget)|done]. }
  destruct (claims !! "accountNumber") as [v|] eqn:Hnum.
  2:{ right; left. eexists _, _, _.
      split; [apply (middleware_no_number L rt h r st st' _ _ _ _ Hv Hvalid Hid Hget Hclaims)|done].
      intros f. by rewrite Hnum. }
  assert ((exists f, v = VFloat64 f) \/ (forall f, v <> VFloat64 f)) as [[f ->]|Hnot]
    by (destruct v; try (right; discriminate); left; by eexists).
  - destruct a as [a|].
    2:{ right; left. eexists _, _, _.
        split; [exact (middleware_nil_account L rt h r st st' _ _ _ _ Hv Hvalid Hid Hget
                         Hclaims Hnum)|done]. }
    rewrite (middleware_compare L rt h r st st' _ _ _ _ _ Hv Hvalid Hid Hget Hclaims Hnum).
    destruct (Number a =? _).
    + right; right. by eexists _, _.
    + left. by eexists _, _.
  - right; left. eexists _, _, _.
    split; [apply (middleware_no_number L rt h r st st' _ _ _ _ Hv Hvalid Hid Hget Hclaims)|done].
    intros f. rewrite Hnum. intros [= ->]. by apply (Hnot f).
Qed.

End Outcomes.

(** On the store of the repository the comparison step always panics: the
    lookup returns a nil account and a nil error. *)
Lemma middleware_panics_on_PostgresStorage {DB : Type} (sql : SQL DB) (L : jwt.Lib)
    (rt : Runtime) (h : http.Request -> Go DB unit) r (db : DB) t id claims :
  validateJWT L rt (Header_Get (http.Header r) "x-jwt-token") = (Some t, None) ->
  jwt.Valid t = true ->
  getId r = (id, None) ->
  jwt.Claims t = jwt.MapClaims claims ->
  @withJWTAuth DB (PostgresStorage_Storage sql) _ L rt h r (start db)
  = Panicked (nil_account_panic claims)
      {| storage := db; response := http.fresh;
         trace := [middleware_line; EvStorage (CallGetAccountByID id)] |}.
Proof.
  intros Hv Hvalid Hid Hclaims. unfold nil_account_panic.
  destruct (claims !! "accountNumber") as [v|] eqn:Hnum.
  2:{ apply (@middleware_no_number DB (PostgresStorage_Storage sql) L rt h r db db
               _ _ None _ Hv Hvalid Hid eq_refl Hclaims).
      intros f. by rewrite Hnum. }
  assert ((exists f, v = VFloat64 f) \/ (forall f, v <> VFloat64 f)) as [[f ->]|Hnot]
    by (destruct v; try (right; discriminate); left; by eexists).
  - exact (@middleware_nil_account DB (PostgresStorage_Storage sql) L rt h r db db
             _ _ _ _ Hv Hvalid Hid eq_refl Hclaims Hnum).
  - replace (match v with VFloat64 _ => NilDereference | _ => TypeAssertion end)
      with TypeAssertion by (destruct v; try done; by destruct (Hnot f)).
    apply (@middleware_no_number DB (PostgresStorage_Storage sql) L rt h r db db
             _ _ None _ Hv Hvalid Hid eq_refl Hclaims).
    intros f. rewrite Hnum. intros [= ->]. by apply (Hnot f).
Qed.

(** ** C5: the denial is the same on every branch *)

(** C5.  Each branch of the middleware that denies - the token is missing or
    fails validation, the path identifier is malformed, the lookup of the
    account fails, the number of the account differs from the claim - ends
    the run with one and the same response, whose body is the single value
    [{"error": "permission denied"}]; nothing in it tells the branches
    apart. *)
Theorem every_denial_has_the_same_body
    {σ : Type} `{!Storage σ} (L : jwt.Lib) (rt : Runtime)
    (handlerFunc : http.Request -> Go σ unit) (r : http.Request) (st : σ) :
  let tokenString := Header_Get (http.Header r) "x-jwt-token" in
  let run := withJWTAuth L rt handlerFunc r (start st) in
  let uniform :=
    exists w', run = Returned tt w'
      /\ response w' = denied_response
      /\ http.rw_body (response w') = [JApiError {| Error := "permission denied" |}] in
  (forall t e, validateJWT L rt tokenString = (t, Some e) -> uniform)
  /\ (forall t id e,
        validateJWT L rt tokenString = (Some t, None) ->
        getId r = (id, Some e) -> uniform)
  /\ (forall t id a e st',
        validateJWT L rt tokenString = (Some t, None) ->
        getId r = (id, None) ->
        GetAccountByID id st = ((a, Some e), st') -> uniform)
  /\ (forall t id a st' claims f,
        validateJWT L rt tokenString = (Some t, None) ->
        getId r = (id, None) ->
        GetAccountByID id st = ((Some a, None), st') ->
        jwt.Claims t = jwt.MapClaims claims ->
        claims !! "accountNumber" = Some (VFloat64 f) ->
        Number a <> int64_of_float64 (conv_overflow rt) f -> uniform).
Proof.
  cbv zeta. repeat split.
  - intros t e Hv. eexists. split; [exact (middleware_invalid_token L rt _ _ _ _ _ Hv)|done].
  - intros t id e Hv Hid.
    destruct (validateJWT_ok_valid L rt _ _ Hv) as (t' & claims & [= <-] & Hvalid & _).
    eexists. split; [exact (middleware_bad_id L rt _ _ _ _ _ _ Hv Hvalid Hid)|done].
  - intros t id a e st' Hv Hid Hget.
    destruct (validateJWT_ok_valid L rt _ _ Hv) as (t' & claims & [= <-] & Hvalid & _).
    eexists.
    split; [exact (middleware_lookup_failed L rt _ _ _ _ _ _ _ _ Hv Hvalid Hid Hget)|done].
  - intros t id a st' claims f Hv Hid Hget Hclaims Hnum Hne.
    destruct (validateJWT_ok_valid L rt _ _ Hv) as (t' & claims' & [= <-] & Hvalid & _).
    rewrite (middleware_compare L rt _ _ _ _ _ _ _ _ _ Hv Hvalid Hid Hget Hclaims Hnum).
    destruct (Z.eqb_spec (Number a) (int64_of_float64 (conv_overflow rt) f)); [done|].
    by eexists.
Qed.

Lemma every_denial_has_the_same_body_witness :
  exists w',
    withJWTAuth (σ := gmap Z Account) (Toy.lib (Toy.account 1 7)) Toy.rt
      (makeHTTPHandlerFunc handleAccountByID) (Toy.request "GET" "one" "h.c.mac-s3cr3t-hc")
      (start {[ 1 := Toy.account 1 7 ]})
    = Returned tt w'
    /\ response w' = denied_response
    /\ http.rw_body (response w') = [JApiError {| Error := "permission denied" |}].
Proof.
  refine (proj1 (proj2 (every_denial_has_the_same_body (σ := gmap Z Account)
            (Toy.lib (Toy.account 1 7)) Toy.rt _
            (Toy.request "GET" "one" "h.c.mac-s3cr3t-hc") _)) _ 0
            (errorString "invalid id provided: 'one'") _ _).
  - vm_compute. reflexivity.
  - reflexivity.
Defined.

(** ** C9: the status of a denial *)

(** C9.  [permissionDenied] writes the status 200 on a fresh writer, so
    whenever the middleware ends a request itself with a response, that
    response carries 200 (the other outcomes are a panic, with nothing
    written, and the call of the handler).  A GET that the handler serves
    carries 200 as well, so the status alone does not tell a denial from a
    success. *)
Theorem denial_is_written_with_status_200
    {σ : Type} `{!Storage σ} (L : jwt.Lib) (rt : Runtime)
    (handlerFunc : http.Request -> Go σ unit) (r : http.Request) (st : σ) :
  (forall tr, exists w',
      permissionDenied {| storage := st; response := http.fresh; trace := tr |}
      = Returned tt w'
      /\ http.rw_status (response w') = Some 200)
  /\ (let run := withJWTAuth L rt handlerFunc r (start st) in
      (exists w', run = Returned tt w'
          /\ http.rw_status (response w') = Some 200
          /\ http.rw_body (response w') = [JApiError {| Error := "permission denied" |}]
          /\ handler_called (trace w') = false)
      \/ (exists p w', run = Panicked p w' /\ http.rw_status (response w') = None
          /\ handler_called (trace w') = false)
      \/ (exists w, run = handlerFunc r w /\ response w = http.fresh
          /\ handler_called (trace w) = true))
  /\ (forall id account st' tr,
        http.Method r = http.MethodGet ->
        getId r = (id, None) ->
        GetAccountByID id st = ((account, None), st') ->
        exists w',
          makeHTTPHandlerFunc handleAccountByID r
            {| storage := st; response := http.fresh; trace := tr |}
          = Returned tt w'
          /\ http.rw_status (response w') = Some 200).
Proof.
  split; [|split].
  - intros tr. eexists. split; [apply permissionDenied_fresh|done].
  - cbv zeta.
    destruct (middleware_outcomes L rt handlerFunc r st)
      as [(st' & tr & -> & Htr)|[(p & st' & tr & -> & Htr)|(st' & tr & -> & Htr)]].
    + left. by eexists.
    + right; left. by eexists _, _.
    + right; right. by eexists.
  - intros id account st' tr Hm Hid Hget. eexists.
    split; [exact (handleAccountByID_get r st st' tr id account Hm Hid Hget)|done].
Qed.

Lemma denial_is_written_with_status_200_witness :
  exists w',
    makeHTTPHandlerFunc (σ := gmap Z Account) handleAccountByID (Toy.bare_request "GET" "1")
      {| storage := {[ 1 := Toy.account 1 7 ]}; response := http.fresh; trace := [] |}
    = Returned tt w'
    /\ http.rw_status (response w') = Some 200.
Proof.
  exact (proj2 (proj2 (denial_is_written_with_status_200 (σ := gmap Z Account)
           (Toy.lib (Toy.account 1 7)) Toy.rt (makeHTTPHandlerFunc handleAccountByID)
           (Toy.bare_request "GET" "1") {[ 1 := Toy.account 1 7 ]}))
           1 (Some (Toy.account 1 7)) {[ 1 := Toy.account 1 7 ]} [] eq_refl eq_refl eq_refl).
Defined.

(** ** C10: where the comparison panics *)

(** C10.  After a valid token and a well-formed identifier, the comparison
    step is partial.  The claim is asserted to be a float64 first: when the
    claims hold no float64 under [accountNumber], the request panics on the
    type assertion, whether the store returned an account or a nil one.
    When the claim is a float64 and the store returned a nil account with a
    nil error, the request panics on the dereference.  Neither case is a
    denial: nothing is written.  The store of the repository returns a nil
    account with a nil error for every identifier, so with it the request
    panics, on the one or the other according to the claims of the token. *)
Theorem comparison_step_panics
    {σ : Type} `{!Storage σ} (L : jwt.Lib) (rt : Runtime)
    (handlerFunc : http.Request -> Go σ unit) (r : http.Request) (st : σ)
    (t : jwt.Token) (id : Z) :
  validateJWT L rt (Header_Get (http.Header r) "x-jwt-token") = (Some t, None) ->
  getId r = (id, None) ->
  exists claims,
    jwt.Claims t = jwt.MapClaims claims
    /\ (forall st' f,
          GetAccountByID id st = ((None, None), st') ->
          claims !! "accountNumber" = Some (VFloat64 f) ->
          withJWTAuth L rt handlerFunc r (start st)
          = Panicked NilDereference
              {| storage := st'; response := http.fresh;
                 trace := [middleware_line; EvStorage (CallGetAccountByID id)] |})
    /\ (forall a st',
          GetAccountByID id st = ((a, None), st') ->
          (forall f, claims !! "accountNumber" <> Some (VFloat64 f)) ->
          withJWTAuth L rt handlerFunc r (start st)
          = Panicked TypeAssertion
              {| storage := st'; response := http.fresh;
                 trace := [middleware_line; EvStorage (CallGetAccountByID id)] |})
    /\ (forall DB (sql : SQL DB) (h : http.Request -> Go DB unit) (db : DB),
          @withJWTAuth DB (PostgresStorage_Storage sql) _ L rt h r (start db)
          = Panicked (nil_account_panic claims)
              {| storage := db; response := http.fresh;
                 trace := [middleware_line; EvStorage (CallGetAccountByID id)] |}).
Proof.
  intros Hv Hid.
  destruct (validateJWT_ok_valid L rt _ _ Hv) as (t' & claims & [= <-] & Hvalid & Hclaims).
  exists claims. split; [done|]. split; [|split].
  - intros st' f Hget Hnum.
    exact (middleware_nil_account L rt _ _ _ _ _ _ _ _ Hv Hvalid Hid Hget Hclaims Hnum).
  - intros a st' Hget Hnum.
    exact (middleware_no_number L rt _ _ _ _ _ _ _ _ Hv Hvalid Hid Hget Hclaims Hnum).
  - intros DB sql h db.
    exact (middleware_panics_on_PostgresStorage sql L rt h r db _ _ _ Hv Hvalid Hid Hclaims).
Qed.

Lemma comparison_step_panics_witness :
  exists claims,
    claims !! "accountNumber" = None
    /\ @withJWTAuth (list Account) (PostgresStorage_Storage Toy.sql) _
         Toy.lib_without_number Toy.rt
         (makeHTTPHandlerFunc (@handleAccountByID _ (PostgresStorage_Storage Toy.sql) _))
         (Toy.request "GET" "1" "h.c.mac-s3cr3t-hc") (start [Toy.account 1 7])
       = Panicked (nil_account_panic claims)
           {| storage := [Toy.account 1 7]; response := http.fresh;
              trace := [middleware_line; EvStorage (CallGetAccountByID 1)] |}.
Proof.
  destruct (comparison_step_panics (σ := gmap Z Account)
              Toy.lib_without_number Toy.rt (makeHTTPHandlerFunc handleAccountByID)
              (Toy.request "GET" "1" "h.c.mac-s3cr3t-hc") ∅
              {| jwt.Raw := "h.c.mac-s3cr3t-hc";
                 jwt.Method := Some (jwt.SigningMethodHMAC jwt.SHA256);
                 jwt.Header := issued_header;
                 jwt.Claims := jwt.MapClaims (json_reread <$> {[ "expiresAt" := VInt 15000 ]});
                 jwt.Signature := "mac-s3cr3t-hc";
                 jwt.Valid := true |} 1 eq_refl eq_refl)
    as (claims & Hclaims & _ & _ & Hstore).
  exists claims. split.
  - injection Hclaims as <-. reflexivity.
  - exact (Hstore (list Account) Toy.sql _ [Toy.account 1 7]).
Defined.

(** The two panics on the store of the repository, run: the token issued for
    an account panics on the dereference, a signed token without a number
    on the type assertion. *)
Example both_panics_run_on_PostgresStorage :
  (exists w,
      @withJWTAuth (list Account) (PostgresStorage_Storage Toy.sql) _
        (Toy.lib (Toy.account 1 7)) Toy.rt
        (makeHTTPHandlerFunc (@handleAccountByID _ (PostgresStorage_Storage Toy.sql) _))
        (Toy.request "GET" "1" "h.c.mac-s3cr3t-hc") (start [Toy.account 1 7])
      = Panicked NilDereference w)
  /\ (exists w,
        @withJWTAuth (list Account) (PostgresStorage_Storage Toy.sql) _
          Toy.lib_without_number Toy.rt
          (makeHTTPHandlerFunc (@handleAccountByID _ (PostgresStorage_Storage Toy.sql) _))
          (Toy.request "GET" "1" "h.c.mac-s3cr3t-hc") (start [Toy.account 1 7])
        = Panicked TypeAssertion w).
Proof. split; eexists; vm_compute; reflexivity. Qed.

(** ** C6: errors of the handlers *)

Section Errors.

Context {σ : Type} `{!Storage σ}.
Variable L : jwt.Lib.
Variable rt : Runtime.

(** What [makeHTTPHandlerFunc] does with an error returned on a fresh
    writer, for any function of type [apiFunc]. *)
Lemma makeHTTPHandlerFunc_error (f : http.Request -> Go σ (option error)) r
    (w w' : World σ) e :
  f r w = Returned (Some e) w' ->
  response w' = http.fresh ->
  makeHTTPHandlerFunc f r w
  = Returned tt
      {| storage := storage w';
         response := json_response http.StatusBadRequest
                       (JApiError {| Error := err_Error e |});
         trace := trace w' |}.
Proof.
  intros Hrun Hfresh. unfold makeHTTPHandlerFunc. unfold mbind at 1, Go_bind.
  rewrite Hrun. destruct w' as [st' resp' tr']. cbn [storage response trace] in *.
  subst resp'. unfold mbind, Go_bind. by rewrite WriteJSON_fresh.
Qed.

End Errors.

Section ErrorsOfAnyEncoder.

Context {σ : Type} `{!Storage σ}.
Variable enc : Encoder.
Variable L : jwt.Lib.
Variable rt : Runtime.

(** [WriteJSON] on a fresh writer, whatever the encoder does. *)
Lemma WriteJSON_fresh_any status v (st : σ) tr :
  WriteJSON (enc := enc) status v {| storage := st; response := http.fresh; trace := tr |}
  = Returned (@encode_error enc v)
      {| storage := st; response := written_response enc status v; trace := tr |}.
Proof.
  unfold WriteJSON, Encode, written_response, on_response, mbind, Go_bind, mret, Go_ret.
  cbn [storage response trace].
  destruct (@encode_error enc v) as [err|];
    unfold json_response, unencoded_response, http.Write_, http.WriteHeader, http.Header_Set;
    cbn; by rewrite insert_empty.
Qed.

(** [WriteJSON] of an error after a status was written and nothing encoded. *)
Lemma WriteJSON_late status status' e (st : σ) tr :
  WriteJSON (enc := enc) status' (JApiError {| Error := err_Error e |})
    {| storage := st; response := unencoded_response status; trace := tr |}
  = Returned (@encode_error enc (JApiError {| Error := err_Error e |}))
      {| storage := st; response := late_error_response enc status e; trace := tr |}.
Proof.
  unfold WriteJSON, Encode, late_error_response, on_response, mbind, Go_bind, mret, Go_ret.
  cbn [storage response trace].
  destruct (@encode_error enc (JApiError {| Error := err_Error e |})) as [err|];
    unfold unencoded_response, http.Write_, http.WriteHeader, http.Header_Set;
    cbn; by rewrite insert_singleton.
Qed.



End ErrorsOfAnyEncoder.




(** ** C7: the lookup of the reference store *)

(** C7 (what the code does).  [PostgresStorage.GetAccountByID] returns a nil
    account and a nil error for every identifier and every state of the
    database - also right after an account was inserted, and after
    [DeleteAccount], which itself changes nothing.  It never returns an
    account and never fails. *)
Theorem PostgresStorage_GetAccountByID_is_an_empty_success
    {DB : Type} (sql : SQL DB) (id : Z) (db : DB) (a : Account) :
  @GetAccountByID DB (PostgresStorage_Storage sql) id db = ((None, None), db)
  /\ @DeleteAccount DB (PostgresStorage_Storage sql) id db = (None, db)
  /\ (let db' := snd (@CreateAccount DB (PostgresStorage_Storage sql) a db) in
      forall id', @GetAccountByID DB (PostgresStorage_Storage sql) id' db'
                  = ((None, None), db')).
Proof. repeat split. Qed.

(** The contract itself can be kept: on the in-memory store a lookup returns
    the stored account, and after a deletion it fails with [NotFound]. *)
Lemma MemStorage_lookup_keeps_the_contract (id : Z) (m : gmap Z Account) (a : Account) :
  m !! id = Some a ->
  MemStorage.GetAccountByID id m = ((Some a, None), m)
  /\ (let m' := snd (MemStorage.DeleteAccount id m) in
      MemStorage.GetAccountByID id m' = ((None, Some (MemStorage.NotFound id)), m')).
Proof.
  intros Hm. unfold MemStorage.GetAccountByID, MemStorage.DeleteAccount.
  rewrite Hm. cbn [snd]. by rewrite lookup_delete_eq.
Qed.

(** ** C8: verbs that a route does not serve *)

(** C8.  On the collection route every verb other than GET and POST, and on
    the single-resource route every verb other than GET and DELETE, makes the
    handler return at once the error whose text is "method not allowed, "
    followed by the verb; the world is left as it was. *)
Theorem unsupported_verb_is_method_not_allowed
    {σ : Type} `{!Storage σ} (L : jwt.Lib) (rt : Runtime)
    (r : http.Request) (w : World σ) :
  (http.Method r <> "GET" -> http.Method r <> "POST" ->
   handleAccount L rt r w
   = Returned (Some (errorString ("method not allowed, " ++ http.Method r))) w)
  /\ (http.Method r <> "GET" -> http.Method r <> "DELETE" ->
      handleAccountByID r w
      = Returned (Some (errorString ("method not allowed, " ++ http.Method r))) w).
Proof.
  split; intros H1 H2; unfold handleAccount, handleAccountByID,
    http.MethodGet, http.MethodPost, http.MethodDelete.
  - destruct (String.eqb_spec (http.Method r) "GET"); [done|].
    destruct (String.eqb_spec (http.Method r) "POST"); [done|]. reflexivity.
  - destruct (String.eqb_spec (http.Method r) "GET"); [done|].
    destruct (String.eqb_spec (http.Method r) "DELETE"); [done|]. reflexivity.
Qed.

Lemma unsupported_verb_is_method_not_allowed_witness :
  handleAccount (σ := gmap Z Account) (Toy.lib (Toy.account 1 7)) Toy.rt
    (Toy.bare_request "DELETE" "1") (start ∅)
  = Returned (Some (errorString "method not allowed, DELETE")) (start ∅)
  /\ handleAccountByID (σ := gmap Z Account) (Toy.bare_request "PUT" "1") (start ∅)
     = Returned (Some (errorString "method not allowed, PUT")) (start ∅).
Proof.
  split.
  - apply (proj1 (unsupported_verb_is_method_not_allowed (σ := gmap Z Account)
                    (Toy.lib (Toy.account 1 7)) Toy.rt (Toy.bare_request "DELETE" "1")
                    (start ∅))); discriminate.
  - apply (proj2 (unsupported_verb_is_method_not_allowed (σ := gmap Z Account)
                    (Toy.lib (Toy.account 1 7)) Toy.rt (Toy.bare_request "PUT" "1")
                    (start ∅))); discriminate.
Defined.

(** * Further properties of the code *)

(** ** The account number on its way through the token *)

(** Rereading an integer below 2^63 in magnitude as a float64 moves it by at
    most 512, keeps it within 2^63 in magnitude and keeps its sign. *)
Lemma float64_trunc_of_int_close n :
  Z.abs n < 2 ^ 63 ->
  let t := float64_trunc (float64_of_int n) in
  Z.abs (t - n) <= 512 /\ Z.abs t <= 2 ^ 63 /\ (0 <= n -> 0 <= t) /\ (n <= 0 -> t <= 0).
Proof.
  intros Hn. cbv zeta.
  destruct (Z_lt_le_dec (Z.abs n) (2 ^ 53)) as [Hsmall|Hbig].
  { rewrite float64_trunc_of_int by (unfold float64_exact; lia). lia. }
  assert (53 <= Z.log2 (Z.abs n) <= 62) as Hlog.
  { split.
    - apply Z.log2_le_pow2; lia.
    - apply Z.lt_succ_r. apply Z.log2_lt_pow2; lia. }
  pose proof (Z.log2_spec (Z.abs n) ltac:(lia)) as Hspec.
  unfold float64_of_int. cbv zeta.
  set (a := Z.abs n) in *. set (s := Z.log2 a + 1 - 53) in *.
  destruct (Z.leb_spec s 0); [lia|].
  rewrite Z.shiftr_div_pow2, Z.land_ones by lia.
  unfold float64_trunc. cbn [f_exp f_mant].
  destruct (Z.leb_spec 0 s); [|lia].
  assert (Z.succ (Z.log2 a) = s + 53) as Hs by lia. rewrite Hs in Hspec.
  assert (Z.log2 a = s + 52) as Hs' by lia. rewrite Hs' in Hspec.
  replace (2 ^ (s + 53)) with (2 ^ 53 * 2 ^ s) in Hspec
    by (rewrite <- Z.pow_add_r by lia; f_equal; lia).
  replace (2 ^ (s + 52)) with (2 ^ 52 * 2 ^ s) in Hspec
    by (rewrite <- Z.pow_add_r by lia; f_equal; lia).
  assert (2 ^ s = 2 * 2 ^ (s - 1)) as Hhalf
    by (rewrite <- Z.pow_succ_r by lia; f_equal; lia).
  assert (1 <= 2 ^ (s - 1) <= 512) as Hh.
  { split; [pose proof (Z.pow_pos_nonneg 2 (s - 1) ltac:(lia) ltac:(lia)); lia|].
    change 512 with (2 ^ 9). apply Z.pow_le_mono_r; lia. }
  set (half := 2 ^ (s - 1)) in *. rewrite Hhalf in *.
  pose proof (Z.div_mod a (2 * half) ltac:(lia)) as Hdm.
  pose proof (Z.mod_pos_bound a (2 * half) ltac:(lia)) as Hr.
  set (q := a `div` (2 * half)) in *. set (r := a `mod` (2 * half)) in *.
  assert (2 ^ 52 <= q < 2 ^ 53) as Hq by nia.
  assert (n = a \/ n = - a) as Hsign by (subst a; lia).
  assert (0 < a) by lia.
  destruct ((half <? r) || ((r =? half) && Z.odd q)) eqn:Hup.
  - assert (half <= r) as Hge.
    { apply orb_true_iff in Hup as [Hlt|Heq].
      - apply Z.ltb_lt in Hlt. lia.
      - apply andb_true_iff in Heq as [Heq _]. apply Z.eqb_eq in Heq. lia. }
    destruct Hsign as [Hpos|Hneg].
    + rewrite Hpos. rewrite Z.sgn_pos by lia. nia.
    + rewrite Hneg. rewrite Z.sgn_neg by lia. nia.
  - assert (r <= half) as Hle.
    { apply orb_false_iff in Hup as [Hlt _]. apply Z.ltb_ge in Hlt. lia. }
    destruct Hsign as [Hpos|Hneg].
    + rewrite Hpos. rewrite Z.sgn_pos by lia. nia.
    + rewrite Hneg. rewrite Z.sgn_neg by lia. nia.
Qed.

Lemma int64_of_float64_of_int_close ov n :
  min_int64 <= n <= 2 ^ 63 - 513 ->
  Z.abs (int64_of_float64 ov (float64_of_int n) - n) <= 512.
Proof.
  unfold min_int64. intros Hn.
  destruct (Z.eq_dec n (- 2 ^ 63)) as [->|Hne].
  { replace (int64_of_float64 ov (float64_of_int (- 2 ^ 63))) with (- 2 ^ 63)
      by reflexivity. lia. }
  destruct (float64_trunc_of_int_close n ltac:(lia)) as (Hclose & Hmag & Hpos & Hneg).
  unfold int64_of_float64. cbv zeta.
  set (t := float64_trunc (float64_of_int n)) in *.
  assert (in_int64 t = true) as ->; [|done].
  unfold in_int64, min_int64, max_int64.
  apply andb_true_iff. split; apply Z.leb_le; lia.
Qed.

(** The token of an account B is denied on the route of every account whose
    number is more than 512 away from B's, over the whole range of int64
    numbers that a float64 does not round up to 2^63: the number read back
    from the token is within 512 of B's. *)
Theorem token_of_distant_account_is_denied
    {σ : Type} `{!Storage σ} (L : jwt.Lib) (rt0 rt : Runtime) (A B : Account)
    (handlerFunc : http.Request -> Go σ unit) (r : http.Request)
    (st st' : σ) (id : Z) :
  faithful L issued_header (issued_claims B)
    (issued_sig L (Getenv rt0 "JWT_TEST_SECRET") B) ->
  Header_Get (http.Header r) "x-jwt-token" = fst (createJWT L rt0 B) ->
  getId r = (id, None) ->
  GetAccountByID id st = ((Some A, None), st') ->
  min_int64 <= Number B <= 2 ^ 63 - 513 ->
  512 < Z.abs (Number A - Number B) ->
  denies (withJWTAuth L rt handlerFunc r (start st)).
Proof.
  intros Hf Hhdr Hid Hget HB Hfar.
  destruct (validateJWT L rt (Header_Get (http.Header r) "x-jwt-token"))
    as [ot [e|]] eqn:Hv.
  - rewrite (middleware_invalid_token L rt _ _ _ _ _ Hv).
    by apply denied_world_denies.
  - pose proof Hv as Hv'. rewrite Hhdr in Hv'.
    apply (validateJWT_issued L rt0 rt B ot Hf) in Hv' as (t & -> & Hvalid & Hclaims).
    rewrite (middleware_compare L rt _ _ _ _ _ _ _ _ _ Hv Hvalid Hid Hget Hclaims
               (issued_claims_number B)).
    pose proof (int64_of_float64_of_int_close (conv_overflow rt) (Number B) HB) as Hclose.
    destruct (Z.eqb_spec (Number A)
                (int64_of_float64 (conv_overflow rt) (float64_of_int (Number B))))
      as [Heq|_]; [lia|].
    by apply denied_world_denies.
Qed.

Lemma token_of_distant_account_is_denied_witness :
  denies
    (withJWTAuth (σ := gmap Z Account) (Toy.lib (Toy.account 2 (2 ^ 60 + 77))) Toy.rt
       (makeHTTPHandlerFunc handleAccountByID)
       (Toy.request "GET" "1" (Toy.token (Toy.account 2 (2 ^ 60 + 77))))
       (start {[ 1 := Toy.account 1 (2 ^ 60 + 1000) ]})).
Proof.
  apply (token_of_distant_account_is_denied (Toy.lib (Toy.account 2 (2 ^ 60 + 77)))
           Toy.rt Toy.rt (Toy.account 1 (2 ^ 60 + 1000)) (Toy.account 2 (2 ^ 60 + 77)) _ _
           {[ 1 := Toy.account 1 (2 ^ 60 + 1000) ]}
           {[ 1 := Toy.account 1 (2 ^ 60 + 1000) ]} 1).
  - apply Toy_lib_faithful.
  - reflexivity.
  - reflexivity.
  - reflexivity.
  - unfold min_int64. simpl. lia.
  - simpl. lia.
Defined.

(** The token is bound to the account number and to nothing else: when the
    numbers of A and B agree (and a float64 holds them exactly), the token
    issued for B, validated under the secret of issue, passes the middleware
    on the route of A, whatever the identifiers, names and balances of the
    two accounts; the handler is called on a fresh writer, after the one
    lookup. *)
Theorem token_is_bound_to_the_number_only
    {σ : Type} `{!Storage σ} (L : jwt.Lib) (rt : Runtime) (A B : Account)
    (handlerFunc : http.Request -> Go σ unit) (r : http.Request)
    (st st' : σ) (id : Z) :
  Number A = Number B ->
  float64_exact (Number B) ->
  faithful L issued_header (issued_claims B)
    (issued_sig L (Getenv rt "JWT_TEST_SECRET") B) ->
  jwt.ValidateClaims L (json_reread <$> issued_claims B) = None ->
  Header_Get (http.Header r) "x-jwt-token" = fst (createJWT L rt B) ->
  getId r = (id, None) ->
  GetAccountByID id st = ((Some A, None), st') ->
  withJWTAuth L rt handlerFunc r (start st)
  = handlerFunc r
      {| storage := st'; response := http.fresh;
         trace := [middleware_line; EvStorage (CallGetAccountByID id); EvHandlerFunc] |}.
Proof.
  intros Hnum Hexact Hf Hval Hhdr Hid Hget.
  destruct (validateJWT_issued_ok L rt rt B Hf eq_refl Hval) as (t & Hv & Hvalid & Hclaims).
  rewrite <- Hhdr in Hv.
  rewrite (middleware_compare L rt _ _ _ _ _ _ _ _ _ Hv Hvalid Hid Hget Hclaims
             (issued_claims_number B)).
  by rewrite (int64_of_float64_of_int _ _ Hexact), Hnum, Z.eqb_refl.
Qed.

Lemma token_is_bound_to_the_number_only_witness :
  let A := {| ID := 1; FirstName := "Grace"; LastName := "Hopper"; Number := 5005;
              Balance := 10; CreatedAt := 1600000000 |} in
  let B := Toy.account 2 5005 in
  registered (σ := gmap Z Account) (Toy.lib B) Toy.rt RouteAccountByID
    (Toy.request "GET" "1" (Toy.token B)) (start {[ 1 := A; 2 := B ]})
  = makeHTTPHandlerFunc handleAccountByID (Toy.request "GET" "1" (Toy.token B))
      {| storage := {[ 1 := A; 2 := B ]}; response := http.fresh;
         trace := [middleware_line; EvStorage (CallGetAccountByID 1); EvHandlerFunc] |}.
Proof.
  cbv zeta.
  apply (token_is_bound_to_the_number_only (Toy.lib (Toy.account 2 5005)) Toy.rt
           {| ID := 1; FirstName := "Grace"; LastName := "Hopper"; Number := 5005;
              Balance := 10; CreatedAt := 1600000000 |} (Toy.account 2 5005)).
  - reflexivity.
  - unfold float64_exact. simpl. lia.
  - apply Toy_lib_faithful.
  - reflexivity.
  - reflexivity.
  - reflexivity.
  - reflexivity.
Defined.

(** ** What validateJWT accepts *)

(** [validateJWT] returns a token without an error exactly for the strings
    of three segments whose header and claims decode, whose header names
    HS256, HS384 or HS512, whose third segment decodes to the MAC, with that
    hash and the secret of the environment, of the first two segments joined
    by a dot, and whose claims the library accepts.  The token it returns
    then is marked valid and holds the decoded claims as [MapClaims].  It
    never returns a nil token together with a nil error, so the test of
    [token.Valid] in the middleware cannot panic, and a token returned
    without error is always valid. *)
Theorem validateJWT_accepts_exactly_the_signed_tokens
    (L : jwt.Lib) (rt : Runtime) (tokenString : string) :
  (forall t,
      validateJWT L rt tokenString = (Some t, None)
      <-> exists p0 p1 p2 header claims alg h,
            split_on "." tokenString = [p0; p1; p2]
            /\ jwt.DecodeJSON L p0 = Some header
            /\ jwt.DecodeJSON L p1 = Some claims
            /\ header !! "alg" = Some (VString alg)
            /\ alg = jwt.Alg (jwt.SigningMethodHMAC h)
            /\ jwt.DecodeSegment L p2
               = Some (jwt.HMAC L h (Getenv rt "JWT_TEST_SECRET") (p0 ++ "." ++ p1)%string)
            /\ jwt.ValidateClaims L claims = None
            /\ t = {| jwt.Raw := tokenString;
                      jwt.Method := Some (jwt.SigningMethodHMAC h);
                      jwt.Header := header;
                      jwt.Claims := jwt.MapClaims claims;
                      jwt.Signature :=
                        jwt.HMAC L h (Getenv rt "JWT_TEST_SECRET") (p0 ++ "." ++ p1)%string;
                      jwt.Valid := true |})
  /\ validateJWT L rt tokenString <> (None, None)
  /\ (forall t, validateJWT L rt tokenString = (Some t, None) -> jwt.Valid t = true).
Proof.
  split; [|split].
  - intros t. split.
    + intros Hv. apply validateJWT_ok_inv in Hv
        as (p0 & p1 & p2 & header & claims & alg & h & Hs & Hh & Hc & Halg & Hm & Hsig & Hval & Ht).
      injection Ht as ->.
      exists p0, p1, p2, header, claims, alg, h. repeat split; try done.
      unfold jwt.GetSigningMethod in Hm. apply List.find_some in Hm as [_ Heq].
      by apply String.eqb_eq in Heq.
    + intros (p0 & p1 & p2 & header & claims & alg & h & Hs & Hh & Hc & Halg & -> & Hsig & Hval & ->).
      unfold validateJWT, jwt.Parse, jwt.ParseUnverified, keyFunc.
      rewrite Hs, Hh, Hc, Halg.
      assert (jwt.GetSigningMethod (jwt.Alg (jwt.SigningMethodHMAC h))
              = Some (jwt.SigningMethodHMAC h)) as -> by (by destruct h).
      cbn [jwt.as_SigningMethodHMAC jwt.Method jwt.Claims jwt.claims_map jwt.Raw jwt.Header].
      rewrite Hsig. cbn [jwt.Verify]. by rewrite String.eqb_refl, Hval.
  - intros Hv. by apply validateJWT_ok_inv in Hv as (? & ? & ? & ? & ? & ? & ? & _ & _ & _ & _ & _ & _ & _ & ?).
  - intros t Hv. by destruct (validateJWT_ok_valid L rt _ _ Hv) as (t' & claims & [= <-] & Hvalid & _).
Qed.

Lemma validateJWT_accepts_exactly_the_signed_tokens_witness :
  validateJWT (Toy.lib (Toy.account 1 7)) Toy.rt "h.c.mac-s3cr3t-hc"
  = (Some {| jwt.Raw := "h.c.mac-s3cr3t-hc";
             jwt.Method := Some (jwt.SigningMethodHMAC jwt.SHA256);
             jwt.Header := issued_header;
             jwt.Claims := jwt.MapClaims (json_reread <$> issued_claims (Toy.account 1 7));
             jwt.Signature := "mac-s3cr3t-hc";
             jwt.Valid := true |}, None).
Proof.
  apply (proj1 (validateJWT_accepts_exactly_the_signed_tokens
                  (Toy.lib (Toy.account 1 7)) Toy.rt "h.c.mac-s3cr3t-hc")).
  exists "h", "c", "mac-s3cr3t-hc", issued_header,
    (json_reread <$> issued_claims (Toy.account 1 7)), "HS256", jwt.SHA256.
  repeat split.
Defined.

(** A token is tied to the secret: validated under a secret whose MAC of the
    signing string differs from the one of the secret of issue, the token of
    an account is refused with the error of an invalid signature, and the
    middleware denies the request that presents it without asking the
    store. *)
Theorem token_under_another_secret_is_rejected
    {σ : Type} `{!Storage σ} (L : jwt.Lib) (rt0 rt : Runtime) (B : Account)
    (handlerFunc : http.Request -> Go σ unit) (r : http.Request) (st : σ) :
  let signingString :=
    (jwt.EncodeJSON L issued_header ++ "." ++ jwt.EncodeJSON L (issued_claims B))%string in
  faithful L issued_header (issued_claims B)
    (issued_sig L (Getenv rt0 "JWT_TEST_SECRET") B) ->
  jwt.HMAC L jwt.SHA256 (Getenv rt "JWT_TEST_SECRET") signingString
  <> jwt.HMAC L jwt.SHA256 (Getenv rt0 "JWT_TEST_SECRET") signingString ->
  Header_Get (http.Header r) "x-jwt-token" = fst (createJWT L rt0 B) ->
  (exists t, validateJWT L rt (fst (createJWT L rt0 B))
             = (Some t, Some (jwt.newError EmptyString jwt.ErrTokenSignatureInvalid
                                [jwt.ErrSignatureInvalid])))
  /\ withJWTAuth L rt handlerFunc r (start st)
     = Returned tt (denied_world st [middleware_line]).
Proof.
  intros signingString Hf Hmac Hhdr.
  assert (exists t, validateJWT L rt (fst (createJWT L rt0 B))
             = (Some t, Some (jwt.newError EmptyString jwt.ErrTokenSignatureInvalid
                                [jwt.ErrSignatureInvalid]))) as [t Hv].
  { pose proof (issued_token_segments L rt0 B Hf) as Hsplit.
    unfold validateJWT, jwt.Parse, jwt.ParseUnverified, keyFunc.
    rewrite Hsplit, (header_decodes _ _ _ _ Hf), (claims_decode _ _ _ _ Hf).
    rewrite issued_header_reread, issued_header_alg.
    change (jwt.GetSigningMethod "HS256") with (Some (jwt.SigningMethodHMAC jwt.SHA256)).
    cbn [jwt.as_SigningMethodHMAC jwt.Method jwt.Claims jwt.claims_map jwt.Raw jwt.Header].
    rewrite (sig_decodes _ _ _ _ Hf). cbn [jwt.Verify].
    unfold issued_sig. fold signingString.
    destruct (String.eqb_spec
                (jwt.HMAC L jwt.SHA256 (Getenv rt0 "JWT_TEST_SECRET") signingString)
                (jwt.HMAC L jwt.SHA256 (Getenv rt "JWT_TEST_SECRET") signingString))
      as [Heq|_]; [by destruct Hmac|].
    by eexists. }
  split; [by exists t|].
  rewrite <- Hhdr in Hv.
  exact (middleware_invalid_token L rt handlerFunc r st _ _ Hv).
Qed.

Lemma token_under_another_secret_is_rejected_witness :
  let rt' :=
    {| environ := {[ "JWT_TEST_SECRET" := "0ther" ]};
       gen_number := gen_number Toy.rt; gen_balance := gen_balance Toy.rt;
       gen_time := gen_time Toy.rt;
       decode_CreateAccountRequest := decode_CreateAccountRequest Toy.rt;
       decode_TransferRequest := decode_TransferRequest Toy.rt;
       conv_overflow := conv_overflow Toy.rt |} in
  withJWTAuth (σ := gmap Z Account) (Toy.lib (Toy.account 1 7)) rt'
    (makeHTTPHandlerFunc handleAccountByID)
    (Toy.request "GET" "1" (Toy.token (Toy.account 1 7)))
    (start {[ 1 := Toy.account 1 7 ]})
  = Returned tt (denied_world {[ 1 := Toy.account 1 7 ]} [middleware_line]).
Proof.
  cbv zeta.
  refine (proj2 (token_under_another_secret_is_rejected (σ := gmap Z Account)
            (Toy.lib (Toy.account 1 7)) Toy.rt _ (Toy.account 1 7) _
            (Toy.request "GET" "1" (Toy.token (Toy.account 1 7))) _ _ _ _)).
  - apply Toy_lib_faithful.
  - discriminate.
  - reflexivity.
Defined.

(** ** What the middleware does to the store and to the writer *)

(** The middleware asks the store at most once, for the account of the
    identifier in the path, and calls no other method of it.  A run ends in
    a denial before any lookup, or, after the one lookup of [id], in a
    denial, in a panic with nothing written, or in the call of the handler
    on the state that lookup left and a writer that is still fresh. *)
Theorem middleware_asks_the_store_at_most_once
    {σ : Type} `{!Storage σ} (L : jwt.Lib) (rt : Runtime)
    (handlerFunc : http.Request -> Go σ unit) (r : http.Request) (st : σ) :
  let run := withJWTAuth L rt handlerFunc r (start st) in
  run = Returned tt (denied_world st [middleware_line])
  \/ exists id,
       getId r = (id, None)
       /\ let st' := snd (GetAccountByID id st) in
          let tr := [middleware_line; EvStorage (CallGetAccountByID id)] in
          store_calls tr = [CallGetAccountByID id]
          /\ (run = Returned tt (denied_world st' tr)
              \/ (exists p, run = Panicked p {| storage := st'; response := http.fresh;
                                                trace := tr |})
              \/ run = handlerFunc r {| storage := st'; response := http.fresh;
                                        trace := tr ++ [EvHandlerFunc] |}).
Proof.
  cbv zeta.
  destruct (validateJWT L rt (Header_Get (http.Header r) "x-jwt-token"))
    as [ot [e|]] eqn:Hv.
  { left. exact (middleware_invalid_token L rt handlerFunc r st _ _ Hv). }
  destruct (validateJWT_ok_valid L rt _ _ Hv) as (t & claims & -> & Hvalid & Hclaims).
  destruct (getId r) as [id [e|]] eqn:Hid.
  { left. exact (middleware_bad_id L rt handlerFunc r st _ _ _ Hv Hvalid Hid). }
  right. exists id. split; [done|]. split; [done|].
  destruct (GetAccountByID id st) as [[a [e|]] st'] eqn:Hget; cbn [snd].
  { left. exact (middleware_lookup_failed L rt handlerFunc r st st' _ _ _ _ Hv Hvalid Hid Hget). }
  destruct (claims !! "accountNumber") as [v|] eqn:Hnum.
  2:{ right; left. exists TypeAssertion.
      apply (middleware_no_number L rt handlerFunc r st st' _ _ _ _ Hv Hvalid Hid Hget Hclaims).
      intros f. by rewrite Hnum. }
  assert ((exists f, v = VFloat64 f) \/ (forall f, v <> VFloat64 f)) as [[f ->]|Hnot]
    by (destruct v; try (right; discriminate); left; by eexists).
  - destruct a as [a|].
    2:{ right; left. exists NilDereference.
        exact (middleware_nil_account L rt handlerFunc r st st' _ _ _ _
                 Hv Hvalid Hid Hget Hclaims Hnum). }
    rewrite (middleware_compare L rt handlerFunc r st st' _ _ _ _ _
               Hv Hvalid Hid Hget Hclaims Hnum).
    destruct (Number a =? _); [by right; right|by left].
  - right; left. exists TypeAssertion.
    apply (middleware_no_number L rt handlerFunc r st st' _ _ _ _ Hv Hvalid Hid Hget Hclaims).
    intros f. rewrite Hnum. intros [= ->]. by apply (Hnot f).
Qed.

(** On the store of the repository the handler behind the middleware is out
    of reach: whatever the request and the token, the run on the protected
    route is the uniform denial (the token fails validation or the identifier
    is malformed) or, for a validated token and a well-formed identifier, a
    panic after the lookup - on the type assertion when the claims of the
    token hold no float64 under [accountNumber], on the nil account
    otherwise.  The database is left as it was, and the outcome does not
    depend on the handler. *)
Theorem protected_route_never_reaches_the_handler_on_PostgresStorage
    {DB : Type} (sql : SQL DB) (L : jwt.Lib) (rt : Runtime)
    (handlerFunc : http.Request -> Go DB unit) (r : http.Request) (db : DB) :
  let run := @withJWTAuth DB (PostgresStorage_Storage sql) _ L rt handlerFunc r (start db) in
  (run = Returned tt (denied_world db [middleware_line])
   \/ exists id t claims,
        getId r = (id, None)
        /\ validateJWT L rt (Header_Get (http.Header r) "x-jwt-token") = (Some t, None)
        /\ jwt.Claims t = jwt.MapClaims claims
        /\ run = Panicked (nil_account_panic claims)
                   {| storage := db; response := http.fresh;
                      trace := [middleware_line; EvStorage (CallGetAccountByID id)] |})
  /\ forall handlerFunc',
       @withJWTAuth DB (PostgresStorage_Storage sql) _ L rt handlerFunc' r (start db) = run.
Proof.
  cbv zeta.
  destruct (validateJWT L rt (Header_Get (http.Header r) "x-jwt-token"))
    as [ot [e|]] eqn:Hv.
  { split; [left|intros h'];
      by rewrite !(@middleware_invalid_token DB (PostgresStorage_Storage sql) L rt _ r db _ _ Hv). }
  destruct (validateJWT_ok_valid L rt _ _ Hv) as (t & claims & -> & Hvalid & Hclaims).
  destruct (getId r) as [id [e|]] eqn:Hid.
  { split; [left|intros h'];
      by rewrite !(@middleware_bad_id DB (PostgresStorage_Storage sql) L rt _ r db _ _ _
                     Hv Hvalid Hid). }
  assert (forall h,
      @withJWTAuth DB (PostgresStorage_Storage sql) _ L rt h r (start db)
      = Panicked (nil_account_panic claims)
          {| storage := db; response := http.fresh;
             trace := [middleware_line; EvStorage (CallGetAccountByID id)] |}) as Hrun.
  { intros h.
    exact (middleware_panics_on_PostgresStorage sql L rt h r db _ _ _ Hv Hvalid Hid Hclaims). }
  split.
  - right. exists id, t, claims. by rewrite Hrun.
  - intros h'. by rewrite !Hrun.
Qed.

(** ** makeHTTPHandlerFunc and WriteJSON on any function of type apiFunc *)

(** [makeHTTPHandlerFunc] adds nothing to a run that returns no error and
    passes a panic on.  When the function returns an error after it has
    written a status [s] itself, the status 400 comes too late: the response
    keeps [s] and the headers sent with it, and the error is appended to the
    body as one more JSON value. *)
Theorem makeHTTPHandlerFunc_cannot_change_a_written_status
    {σ : Type} (f : http.Request -> Go σ (option error)) (r : http.Request)
    (w w' : World σ) :
  (f r w = Returned None w' -> makeHTTPHandlerFunc f r w = Returned tt w')
  /\ (forall p, f r w = Panicked p w' -> makeHTTPHandlerFunc f r w = Panicked p w')
  /\ (forall e s,
        f r w = Returned (Some e) w' ->
        http.rw_status (response w') = Some s ->
        makeHTTPHandlerFunc f r w
        = Returned tt
            {| storage := storage w';
               response :=
                 {| http.rw_header :=
                      <["Content-Type" := ["application/json"]]>
                        (http.rw_header (response w'));
                    http.rw_status := Some s;
                    http.rw_sent := http.rw_sent (response w');
                    http.rw_body :=
                      http.rw_body (response w') ++ [JApiError {| Error := err_Error e |}] |};
               trace := trace w' |}).
Proof.
  unfold makeHTTPHandlerFunc. unfold mbind at 1 3 5, Go_bind.
  split; [|split].
  - by intros ->.
  - by intros p ->.
  - intros e s -> Hs. destruct w' as [st' [hdr status sent body] tr'].
    cbn [response http.rw_status] in Hs. subst status.
    reflexivity.
Qed.

Lemma makeHTTPHandlerFunc_cannot_change_a_written_status_witness :
  let f : http.Request -> Go (gmap Z Account) (option error) :=
    fun r => WriteJSON http.StatusOK (JAccounts []);;
             mret (Some (errorString "late failure")) in
  makeHTTPHandlerFunc f (Toy.bare_request "GET" "1") (start ∅)
  = Returned tt
      {| storage := ∅;
         response :=
           {| http.rw_header := {[ "Content-Type" := ["application/json"] ]};
              http.rw_status := Some 200;
              http.rw_sent := {[ "Content-Type" := ["application/json"] ]};
              http.rw_body := [JAccounts []; JApiError {| Error := "late failure" |}] |};
         trace := [] |}.
Proof.
  cbv zeta.
  pose proof (proj2 (proj2 (makeHTTPHandlerFunc_cannot_change_a_written_status
    (σ := gmap Z Account)
    (fun r => WriteJSON http.StatusOK (JAccounts []);;
              mret (Some (errorString "late failure")))
    (Toy.bare_request "GET" "1") (start ∅)
    {| storage := ∅; response := json_response 200 (JAccounts []); trace := [] |}))
    (errorString "late failure") 200 eq_refl eq_refl) as Hrun.
  rewrite Hrun. vm_compute. reflexivity.
Defined.

(** ** The handlers the claims leave aside *)

(** [handleTransfer] never reaches the store: on every request the storage
    state and the trace are what they were.  A verb other than POST gives the
    error naming the verb and a body that does not decode gives the error of
    the decoder, both with nothing written; a POST that decodes is echoed
    back with status 200 and changes no balance. *)
Theorem handleTransfer_echoes_and_leaves_the_store_alone
    {σ : Type} (rt : Runtime) (r : http.Request) (st : σ) (tr : list Event) :
  let w := {| storage := st; response := http.fresh; trace := tr |} in
  (exists oe resp,
      handleTransfer rt r w
      = Returned oe {| storage := st; response := resp; trace := tr |})
  /\ (http.Method r <> "POST" ->
      handleTransfer rt r w
      = Returned (Some (errorString ("method not allowed, " ++ http.Method r))) w)
  /\ (forall e,
        http.Method r = "POST" ->
        decode_TransferRequest rt (http.Body r) = inr e ->
        handleTransfer rt r w = Returned (Some e) w)
  /\ (forall t,
        http.Method r = "POST" ->
        decode_TransferRequest rt (http.Body r) = inl t ->
        handleTransfer rt r w
        = Returned None
            {| storage := st; response := json_response 200 (JTransfer t); trace := tr |}).
Proof.
  cbv zeta. unfold handleTransfer, http.MethodPost.
  destruct (String.eqb_spec (http.Method r) "POST") as [Hm|Hm]; cbn [negb].
  - destruct (decode_TransferRequest rt (http.Body r)) as [t|e] eqn:Hdec.
    + rewrite WriteJSON_fresh. repeat split; try done.
      * by eexists _, _.
      * by intros t' _ [= <-].
    + repeat split; try done.
      * by eexists _, _.
      * by intros e' _ [= <-].
  - repeat split; try done. by eexists _, _.
Qed.

Lemma handleTransfer_echoes_and_leaves_the_store_alone_witness :
  handleTransfer (σ := gmap Z Account) Toy.rt (Toy.post_request "transfer")
    {| storage := {[ 7 := Toy.account 7 70 ]}; response := http.fresh; trace := [] |}
  = Returned None
      {| storage := {[ 7 := Toy.account 7 70 ]};
         response := json_response 200 (JTransfer {| ToAccount := 7; Amount := 100 |});
         trace := [] |}.
Proof.
  exact (proj2 (proj2 (proj2 (handleTransfer_echoes_and_leaves_the_store_alone
           (σ := gmap Z Account) Toy.rt (Toy.post_request "transfer")
           {[ 7 := Toy.account 7 70 ]} []))) {| ToAccount := 7; Amount := 100 |}
           eq_refl eq_refl).
Defined.

(** [handleCreateAccount] stops at the first failure.  A body that does not
    decode is answered with the error of the decoder before the store is
    called; an account the store refuses is answered with the error of the
    store, and then no token is issued or printed and nothing is written.
    In both cases the route answers 400 with the text of that error. *)
Theorem handleCreateAccount_stops_at_the_first_failure
    {σ : Type} `{!Storage σ} (L : jwt.Lib) (rt : Runtime) (r : http.Request) (st : σ) :
  (forall e,
      decode_CreateAccountRequest rt (http.Body r) = inr e ->
      handleCreateAccount L rt r (start st) = Returned (Some e) (start st)
      /\ makeHTTPHandlerFunc (handleCreateAccount L rt) r (start st)
         = Returned tt
             {| storage := st;
                response := json_response 400 (JApiError {| Error := err_Error e |});
                trace := [] |})
  /\ (forall req e st',
        decode_CreateAccountRequest rt (http.Body r) = inl req ->
        let account := NewAccount rt (req_FirstName req) (req_LastName req) in
        CreateAccount account st = (Some e, st') ->
        handleCreateAccount L rt r (start st)
        = Returned (Some e)
            {| storage := st'; response := http.fresh;
               trace := [EvStorage (CallCreateAccount account)] |}
        /\ makeHTTPHandlerFunc (handleCreateAccount L rt) r (start st)
           = Returned tt
               {| storage := st';
                  response := json_response 400 (JApiError {| Error := err_Error e |});
                  trace := [EvStorage (CallCreateAccount account)] |}).
Proof.
  split.
  - intros e Hdec.
    assert (handleCreateAccount L rt r (start st) = Returned (Some e) (start st)) as Hrun
      by (unfold handleCreateAccount; by rewrite Hdec).
    split; [done|].
    by rewrite (makeHTTPHandlerFunc_error _ r _ _ e Hrun eq_refl).
  - intros req e st' Hdec account Hcreate.
    assert (handleCreateAccount L rt r (start st)
            = Returned (Some e)
                {| storage := st'; response := http.fresh;
                   trace := [EvStorage (CallCreateAccount account)] |}) as Hrun.
    { unfold handleCreateAccount. rewrite Hdec. fold account.
      unfold s_CreateAccount, call, mbind, Go_bind, start. cbn [storage response trace app].
      by rewrite Hcreate. }
    split; [done|].
    by rewrite (makeHTTPHandlerFunc_error _ r _ _ e Hrun eq_refl).
Qed.

Lemma handleCreateAccount_stops_at_the_first_failure_witness :
  makeHTTPHandlerFunc
    (handleCreateAccount (σ := gmap Z Account) (Toy.lib (Toy.account 1 7)) Toy.rt)
    (Toy.post_request "{") (start ∅)
  = Returned tt
      {| storage := ∅;
         response := json_response 400
                       (JApiError {| Error := "unexpected end of JSON input" |});
         trace := [] |}.
Proof.
  exact (proj2 (proj1 (handleCreateAccount_stops_at_the_first_failure
           (σ := gmap Z Account) (Toy.lib (Toy.account 1 7)) Toy.rt
           (Toy.post_request "{") ∅)
           (errorString "unexpected end of JSON input") eq_refl)).
Defined.

(** [handleDeleteAccount] deletes only after a lookup that returned no
    error.  A malformed identifier ends it before any call of the store; a
    failed lookup ends it with the error of the store behind the words
    "error occured while deleting account details: " and without a call of
    [DeleteAccount]; a failed deletion is returned as it is; and only a
    deletion without error is answered, with status 200 and the identifier.
    The account the lookup returned is not looked at: a nil account with a
    nil error goes on to the deletion. *)
Theorem handleDeleteAccount_deletes_only_after_a_lookup
    {σ : Type} `{!Storage σ} (r : http.Request) (st : σ) :
  (forall id e,
      getId r = (id, Some e) ->
      handleDeleteAccount r (start st) = Returned (Some e) (start st))
  /\ (forall id a e st',
        getId r = (id, None) ->
        GetAccountByID id st = ((a, Some e), st') ->
        handleDeleteAccount r (start st)
        = Returned
            (Some (errorString
                     ("error occured while deleting account details: " ++ err_Error e)))
            {| storage := st'; response := http.fresh;
               trace := [EvStorage (CallGetAccountByID id)] |})
  /\ (forall id a st' e st'',
        getId r = (id, None) ->
        GetAccountByID id st = ((a, None), st') ->
        DeleteAccount id st' = (Some e, st'') ->
        handleDeleteAccount r (start st)
        = Returned (Some e)
            {| storage := st''; response := http.fresh;
               trace := [EvStorage (CallGetAccountByID id);
                         EvStorage (CallDeleteAccount id)] |})
  /\ (forall id a st' st'',
        getId r = (id, None) ->
        GetAccountByID id st = ((a, None), st') ->
        DeleteAccount id st' = (None, st'') ->
        handleDeleteAccount r (start st)
        = Returned None
            {| storage := st''; response := json_response 200 (JDeleted id);
               trace := [EvStorage (CallGetAccountByID id);
                         EvStorage (CallDeleteAccount id)] |}).
Proof.
  repeat split.
  - intros id e Hid. unfold handleDeleteAccount. by rewrite Hid.
  - intros id a e st' Hid Hget. unfold handleDeleteAccount. rewrite Hid.
    unfold start, s_GetAccountByID, call, mbind, Go_bind, mret, Go_ret.
    cbn [storage response trace app]. by rewrite Hget.
  - intros id a st' e st'' Hid Hget Hdel. unfold handleDeleteAccount. rewrite Hid.
    unfold start, s_GetAccountByID, s_DeleteAccount, call, mbind, Go_bind, mret, Go_ret.
    cbn [storage response trace app]. rewrite Hget.
    cbn [storage response trace app]. by rewrite Hdel.
  - intros id a st' st'' Hid Hget Hdel. unfold handleDeleteAccount. rewrite Hid.
    unfold start, s_GetAccountByID, s_DeleteAccount, call, mbind, Go_bind, mret, Go_ret.
    cbn [storage response trace app]. rewrite Hget.
    cbn [storage response trace app]. rewrite Hdel. apply WriteJSON_fresh.
Qed.

Lemma handleDeleteAccount_deletes_only_after_a_lookup_witness :
  handleDeleteAccount (σ := gmap Z Account) (Toy.bare_request "DELETE" "2")
    (start {[ 1 := Toy.account 1 7 ]})
  = Returned
      (Some (errorString
               "error occured while deleting account details: account not found"))
      {| storage := {[ 1 := Toy.account 1 7 ]}; response := http.fresh;
         trace := [EvStorage (CallGetAccountByID 2)] |}.
Proof.
  exact (proj1 (proj2 (handleDeleteAccount_deletes_only_after_a_lookup
           (σ := gmap Z Account) (Toy.bare_request "DELETE" "2")
           {[ 1 := Toy.account 1 7 ]}))
           2 None (MemStorage.NotFound 2) {[ 1 := Toy.account 1 7 ]} eq_refl eq_refl).
Defined.

(** ** The store of the repository behind the handlers *)

(** On the store of the repository a DELETE that reaches the handler with a
    well-formed identifier is always answered with status 200 and
    "account deleted successfully with id", whether or not the account
    exists, and deletes nothing: the database is the one the request found,
    so a listing afterwards returns what it returned before. *)
Theorem PostgresStorage_delete_reports_success_and_deletes_nothing
    {DB : Type} (sql : SQL DB) (r : http.Request) (db : DB) (id : Z) :
  getId r = (id, None) ->
  @handleDeleteAccount DB (PostgresStorage_Storage sql) _ r (start db)
  = Returned None
      {| storage := db; response := json_response 200 (JDeleted id);
         trace := [EvStorage (CallGetAccountByID id); EvStorage (CallDeleteAccount id)] |}
  /\ (forall w',
        @handleDeleteAccount DB (PostgresStorage_Storage sql) _ r (start db) = Returned None w' ->
        @GetAllAccounts DB (PostgresStorage_Storage sql) (storage w')
        = @GetAllAccounts DB (PostgresStorage_Storage sql) db).
Proof.
  intros Hid.
  assert (@handleDeleteAccount DB (PostgresStorage_Storage sql) _ r (start db)
          = Returned None
              {| storage := db; response := json_response 200 (JDeleted id);
                 trace := [EvStorage (CallGetAccountByID id);
                           EvStorage (CallDeleteAccount id)] |}) as Hrun.
  { unfold handleDeleteAccount. rewrite Hid.
    unfold start, s_GetAccountByID, s_DeleteAccount, call, mbind, Go_bind, mret, Go_ret.
    cbn [storage response trace app GetAccountByID DeleteAccount PostgresStorage_Storage
         PostgresStorage.GetAccountByID PostgresStorage.DeleteAccount].
    apply WriteJSON_fresh. }
  split; [exact Hrun|].
  intros w' Hw'. rewrite Hrun in Hw'. by injection Hw' as <-.
Qed.

Lemma PostgresStorage_delete_reports_success_and_deletes_nothing_witness :
  @handleDeleteAccount (list Account) (PostgresStorage_Storage Toy.sql) _
    (Toy.bare_request "DELETE" "9") (start [Toy.account 1 7])
  = Returned None
      {| storage := [Toy.account 1 7]; response := json_response 200 (JDeleted 9);
         trace := [EvStorage (CallGetAccountByID 9); EvStorage (CallDeleteAccount 9)] |}.
Proof.
  exact (proj1 (PostgresStorage_delete_reports_success_and_deletes_nothing Toy.sql
           (Toy.bare_request "DELETE" "9") [Toy.account 1 7] 9 eq_refl)).
Defined.

Lemma scan_rows_all rows accounts :
  scan_rows (inl <$> rows) accounts = ((accounts ++ rows)%list, None).
Proof.
  revert accounts. induction rows as [|a rows IH]; intros accounts; cbn.
  - by rewrite app_nil_r.
  - rewrite IH. by rewrite <- app_assoc.
Qed.

Lemma scan_rows_first_failure good e rest accounts :
  scan_rows ((inl <$> good) ++ inr e :: rest) accounts = ([], Some e).
Proof.
  revert accounts. induction good as [|a good IH]; intros accounts; cbn; [done|].
  apply IH.
Qed.

(** [GetAllAccounts] returns what the rows delivered, and never reads
    [rows.Err()].  When the query fails it returns its error.  When every
    row delivered scans it returns their accounts in the order of the rows
    with a nil error (no row: an empty list) - also when the iteration broke
    off and [rows.Err()] holds the cause: the list is then cut short and the
    caller is not told.  When a row fails to scan it returns the error of the
    first such row and no account at all, also none of the rows scanned
    before it.  Two results of the query with the same rows delivered give
    the same result, whatever [rows.Err()] holds. *)
Theorem GetAllAccounts_returns_the_rows_delivered
    {DB : Type} (sql : SQL DB) (db db' : DB) :
  (forall e,
      sql_select_all sql db = (inr e, db') ->
      @GetAllAccounts DB (PostgresStorage_Storage sql) db = (([], Some e), db'))
  /\ (forall accounts err,
        sql_select_all sql db
        = (inl {| delivered := inl <$> accounts; rows_Err := err |}, db') ->
        @GetAllAccounts DB (PostgresStorage_Storage sql) db = ((accounts, None), db'))
  /\ (forall good e rest err,
        sql_select_all sql db
        = (inl {| delivered := (inl <$> good) ++ inr e :: rest; rows_Err := err |}, db') ->
        @GetAllAccounts DB (PostgresStorage_Storage sql) db = (([], Some e), db'))
  /\ (forall (sql2 : SQL DB) (db2 : DB) rows rows2,
        sql_select_all sql db = (inl rows, db') ->
        sql_select_all sql2 db2 = (inl rows2, db') ->
        delivered rows = delivered rows2 ->
        @GetAllAccounts DB (PostgresStorage_Storage sql) db
        = @GetAllAccounts DB (PostgresStorage_Storage sql2) db2).
Proof.
  cbn [GetAllAccounts PostgresStorage_Storage]. unfold PostgresStorage.GetAllAccounts.
  split; [|split; [|split]].
  - by intros e ->.
  - intros accounts err ->. cbn [delivered]. by rewrite scan_rows_all.
  - intros good e rest err ->. cbn [delivered]. by rewrite scan_rows_first_failure.
  - intros sql2 db2 rows rows2 -> -> ->. reflexivity.
Qed.

Lemma GetAllAccounts_returns_the_rows_delivered_witness :
  @GetAllAccounts (list Account) (PostgresStorage_Storage Toy.sql_breaking)
    [Toy.account 1 7; Toy.account 2 8; Toy.account 3 9]
  = (([Toy.account 1 7], None), [Toy.account 1 7; Toy.account 2 8; Toy.account 3 9]).
Proof.
  exact (proj1 (proj2 (GetAllAccounts_returns_the_rows_delivered Toy.sql_breaking
           [Toy.account 1 7; Toy.account 2 8; Toy.account 3 9]
           [Toy.account 1 7; Toy.account 2 8; Toy.account 3 9]))
           [Toy.account 1 7] (Some (errorString "driver: bad connection")) eq_refl).
Defined.

(** The listing route on the store of the repository, under any encoder.
    When every row delivered scans, a GET is answered with status 200 and
    the accounts of those rows, in their order (no row: an empty list),
    provided the encoder takes the list - also when the iteration broke off,
    and then the list is cut short with nothing in the response to tell.
    When the encoder refuses the list, the status stays 200 and the body
    holds the error of the encoder, if the encoder takes that.  When the
    query or the scan of a row fails, the answer is the status 400 and the
    text of the error, when the encoder takes it, without any account in the
    body.  The store is called once. *)
Theorem listing_route_answers_the_rows_delivered
    {DB : Type} (sql : SQL DB) (enc : Encoder) (L : jwt.Lib) (rt : Runtime)
    (r : http.Request) (db db' : DB) :
  http.Method r = http.MethodGet ->
  let run := @registered DB (PostgresStorage_Storage sql) enc L rt RouteAccount r (start db) in
  let answer resp :=
    Returned tt {| storage := db'; response := resp;
                   trace := [EvStorage CallGetAllAccounts] |} in
  (forall accounts err,
      sql_select_all sql db
      = (inl {| delivered := inl <$> accounts; rows_Err := err |}, db') ->
      run = answer match @encode_error enc (JAccounts accounts) with
                   | None => json_response 200 (JAccounts accounts)
                   | Some e => late_error_response enc 200 e
                   end)
  /\ (forall good e rest err,
        sql_select_all sql db
        = (inl {| delivered := (inl <$> good) ++ inr e :: rest; rows_Err := err |}, db') ->
        run = answer (written_response enc 400 (JApiError {| Error := err_Error e |})))
  /\ (forall e,
        sql_select_all sql db = (inr e, db') ->
        run = answer (written_response enc 400 (JApiError {| Error := err_Error e |}))).
Proof.
  intros Hm. cbv zeta.
  cbn [registered]. unfold makeHTTPHandlerFunc, handleAccount. rewrite Hm.
  cbn [String.eqb Ascii.eqb Bool.eqb http.MethodGet].
  unfold handleGetAllAccounts, s_GetAllAccounts, call, start, mbind, Go_bind, mret, Go_ret.
  cbn [storage response trace app GetAllAccounts PostgresStorage_Storage].
  unfold PostgresStorage.GetAllAccounts.
  split; [|split].
  - intros accounts err ->. cbn [delivered]. rewrite scan_rows_all. cbn [app].
    rewrite WriteJSON_fresh_any. unfold written_response.
    destruct (@encode_error enc (JAccounts accounts)) as [e|]; [|done].
    by rewrite WriteJSON_late.
  - intros good e rest err ->. cbn [delivered]. rewrite scan_rows_first_failure.
    by rewrite WriteJSON_fresh_any.
  - intros e ->. by rewrite WriteJSON_fresh_any.
Qed.

Lemma listing_route_answers_the_rows_delivered_witness :
  @registered (list Account) (PostgresStorage_Storage Toy.sql_breaking) encoder_succeeds
    (Toy.lib (Toy.account 1 7)) Toy.rt RouteAccount (Toy.bare_request "GET" "")
    (start [Toy.account 1 7; Toy.account 2 8; Toy.account 3 9])
  = Returned tt
      {| storage := [Toy.account 1 7; Toy.account 2 8; Toy.account 3 9];
         response := json_response 200 (JAccounts [Toy.account 1 7]);
         trace := [EvStorage CallGetAllAccounts] |}.
Proof.
  exact (proj1 (listing_route_answers_the_rows_delivered Toy.sql_breaking encoder_succeeds
           (Toy.lib (Toy.account 1 7)) Toy.rt (Toy.bare_request "GET" "")
           [Toy.account 1 7; Toy.account 2 8; Toy.account 3 9]
           [Toy.account 1 7; Toy.account 2 8; Toy.account 3 9] eq_refl)
           [Toy.account 1 7] (Some (errorString "driver: bad connection")) eq_refl).
Defined.

(** ** The identifier in the path *)









(** ** The order of the calls in WriteJSON *)

(** [WriteJSON] sets the Content-Type before it writes the status, so on a
    writer that has sent nothing yet the header goes out with the status.
    The earlier [WriteJSON] wrote the status first: the same call left the
    header in the map of the handler but out of the headers sent.  Status,
    body, store and trace are the same for both. *)
Theorem WriteJSON_sets_the_header_before_the_status
    {σ : Type} (status : Z) (v : Payload) (st : σ) (tr : list Event)
    (w : http.ResponseWriter) :
  http.rw_status w = None ->
  http.rw_header w !! "Content-Type" = None ->
  (exists w1,
      WriteJSON status v {| storage := st; response := w; trace := tr |}
      = Returned None {| storage := st; response := w1; trace := tr |}
      /\ http.rw_status w1 = Some status
      /\ http.rw_sent w1 !! "Content-Type" = Some ["application/json"]
      /\ http.rw_body w1 = (http.rw_body w ++ [v])%list)
  /\ (exists w2,
        Earlier.WriteJSON status v {| storage := st; response := w; trace := tr |}
        = Returned None {| storage := st; response := w2; trace := tr |}
        /\ http.rw_status w2 = Some status
        /\ http.rw_sent w2 !! "Content-Type" = None
        /\ http.rw_header w2 !! "Content-Type" = Some ["application/json"]
        /\ http.rw_body w2 = (http.rw_body w ++ [v])%list).
Proof.
  intros Hstatus Hheader. destruct w as [hdr status0 sent body].
  cbn [http.rw_status http.rw_header] in *. subst status0.
  split; eexists; (split; [reflexivity|]);
    cbn [http.rw_status http.rw_sent http.rw_body http.rw_header http.WriteHeader
         http.Header_Set http.Write_ response].
  - repeat split. apply lookup_insert_eq.
  - repeat split; [done|apply lookup_insert_eq].
Qed.

Lemma WriteJSON_sets_the_header_before_the_status_witness :
  exists w2,
    Earlier.WriteJSON (σ := gmap Z Account) 200 (JAccounts [])
      {| storage := ∅; response := http.fresh; trace := [] |}
    = Returned None {| storage := ∅; response := w2; trace := [] |}
    /\ http.rw_status w2 = Some 200
    /\ http.rw_sent w2 !! "Content-Type" = None
    /\ http.rw_header w2 !! "Content-Type" = Some ["application/json"]
    /\ http.rw_body w2 = (http.rw_body http.fresh ++ [JAccounts []])%list.
Proof.
  exact (proj2 (WriteJSON_sets_the_header_before_the_status (σ := gmap Z Account)
           200 (JAccounts []) ∅ [] http.fresh eq_refl eq_refl)).
Defined.

(** ** The GET of one account, past the middleware *)

(** On a GET, [handleAccountByID] calls the store once, or not at all when
    the identifier is malformed.  A failed lookup is returned as an error
    whose text is "error occured while fetching account details: " followed
    by the text of the store's error, with nothing written.  A lookup without
    error is answered with status 200 and whatever account it returned: the
    account is not tested, so a nil account with a nil error is answered
    with status 200 and a null body, and there is no "not found" answer of
    the handler's own.  On the store of the repository that is the answer to
    every well-formed GET. *)
Theorem handleAccountByID_answers_whatever_the_lookup_returned
    {σ : Type} `{!Storage σ} (r : http.Request) (st : σ) :
  http.Method r = http.MethodGet ->
  (forall id e, getId r = (id, Some e) ->
      handleAccountByID r (start st) = Returned (Some e) (start st))
  /\ (forall id a e st',
        getId r = (id, None) ->
        GetAccountByID id st = ((a, Some e), st') ->
        handleAccountByID r (start st)
        = Returned
            (Some (errorString
                     ("error occured while fetching account details: " ++ err_Error e)))
            {| storage := st'; response := http.fresh;
               trace := [EvStorage (CallGetAccountByID id)] |})
  /\ (forall id a st',
        getId r = (id, None) ->
        GetAccountByID id st = ((a, None), st') ->
        handleAccountByID r (start st)
        = Returned None
            {| storage := st'; response := json_response 200 (JAccount a);
               trace := [EvStorage (CallGetAccountByID id)] |})
  /\ (forall DB (sql : SQL DB) (db : DB) id,
        getId r = (id, None) ->
        @handleAccountByID DB (PostgresStorage_Storage sql) _ r (start db)
        = Returned None
            {| storage := db; response := json_response 200 (JAccount None);
               trace := [EvStorage (CallGetAccountByID id)] |}).
Proof.
  intros Hm.
  assert (forall τ (S : Storage τ) (s : τ) id a s',
            getId r = (id, None) ->
            @GetAccountByID τ S id s = ((a, None), s') ->
            @handleAccountByID τ S _ r (start s)
            = Returned None
                {| storage := s'; response := json_response 200 (JAccount a);
                   trace := [EvStorage (CallGetAccountByID id)] |}) as Hok.
  { intros τ S s id a s' Hid Hget. unfold handleAccountByID. rewrite Hm, Hid.
    cbn [String.eqb Ascii.eqb Bool.eqb http.MethodGet].
    unfold start, s_GetAccountByID, call, mbind, Go_bind, mret, Go_ret.
    cbn [storage response trace app]. rewrite Hget. apply WriteJSON_fresh. }
  repeat split.
  - intros id e Hid. unfold handleAccountByID. rewrite Hm, Hid. reflexivity.
  - intros id a e st' Hid Hget. unfold handleAccountByID. rewrite Hm, Hid.
    cbn [String.eqb Ascii.eqb Bool.eqb http.MethodGet].
    unfold start, s_GetAccountByID, call, mbind, Go_bind, mret, Go_ret.
    cbn [storage response trace app]. by rewrite Hget.
  - intros id a st' Hid Hget. by apply Hok.
  - intros DB sql db id Hid. by apply Hok.
Qed.

Lemma handleAccountByID_answers_whatever_the_lookup_returned_witness :
  @handleAccountByID (list Account) (PostgresStorage_Storage Toy.sql) _
    (Toy.bare_request "GET" "1") (start [Toy.account 1 7])
  = Returned None
      {| storage := [Toy.account 1 7]; response := json_response 200 (JAccount None);
         trace := [EvStorage (CallGetAccountByID 1)] |}.
Proof.
  exact (proj2 (proj2 (proj2 (handleAccountByID_answers_whatever_the_lookup_returned
           (σ := gmap Z Account) (Toy.bare_request "GET" "1") ∅ eq_refl)))
           (list Account) Toy.sql [Toy.account 1 7] 1 eq_refl).
Defined.
